(** * Link Saver: the bookmark ingestion pipeline and the list controller

    A shallow embedding of [lib/utils.js] (the metadata fetchers) and of the
    handlers of [components/Dashboard.js] ([addBookmark], [toggleTagFilter],
    the filtered view and [handleDrop]).

    JavaScript strings are sequences of UTF-16 code units, so a string is a
    list of numbers and [length] is the JavaScript [.length].  Promises are
    modelled by their outcome, asynchronous functions by the segments between
    their [await]s, and the React component state by a record that the
    handlers transform. *)

From Stdlib Require Import String Ascii Arith NArith ZArith Bool List Lia Permutation.
From Stdlib Require Import DecimalString.
Import ListNotations.

(* ------------------------------------------------------------------ *)
(** ** JavaScript strings *)

Module Js.

Definition jsstring := list N.

(** An ASCII literal of the source, as code units. *)
Definition lit (s : string) : jsstring :=
  map N_of_ascii (list_ascii_of_string s).

Fixpoint eqb (s t : jsstring) : bool :=
  match s, t with
  | [], [] => true
  | c :: s', d :: t' => N.eqb c d && eqb s' t'
  | _, _ => false
  end.

(** [s.startsWith(p)] *)
Fixpoint startsWith (p s : jsstring) : bool :=
  match p, s with
  | [], _ => true
  | c :: p', d :: s' => N.eqb c d && startsWith p' s'
  | _ :: _, [] => false
  end.

(** WhiteSpace and LineTerminator code units of ECMAScript, the ones
    [String.prototype.trim] strips. *)
Definition isWhite (c : N) : bool :=
  ((9 <=? c) && (c <=? 13) || (c =? 32) || (c =? 160) || (c =? 5760)
   || (8192 <=? c) && (c <=? 8202) || (c =? 8232) || (c =? 8233)
   || (c =? 8239) || (c =? 8287) || (c =? 12288) || (c =? 65279))%N.

Fixpoint trimStart (s : jsstring) : jsstring :=
  match s with
  | [] => []
  | c :: s' => if isWhite c then trimStart s' else s
  end.

Definition trimEnd (s : jsstring) : jsstring := rev (trimStart (rev s)).

(** [s.trim()] *)
Definition trim (s : jsstring) : jsstring := trimEnd (trimStart s).

(** [s.substring(0, n)] *)
Definition substring0 (n : nat) (s : jsstring) : jsstring := firstn n s.

(** [String(n)] for a non-negative integer. *)
Definition ofN (n : N) : jsstring :=
  lit (NilEmpty.string_of_uint (N.to_uint n)).

(** [s.split(sep)] for a one-unit separator: never empty, one more piece
    than there are separators. *)
Fixpoint split (sep : N) (s : jsstring) : list jsstring :=
  match s with
  | [] => [[]]
  | c :: s' =>
      if N.eqb c sep then [] :: split sep s'
      else match split sep s' with
           | [] => [[c]]
           | p :: ps => (c :: p) :: ps
           end
  end.

(** [t] occurs in [s]. *)
Definition contains (t s : jsstring) : Prop :=
  exists pre post, s = pre ++ t ++ post.

End Js.

Import Js.

(* ------------------------------------------------------------------ *)
(** ** Promises and exceptions *)

(** A settled promise, or the completion of a block that may throw. *)
Inductive Promise (A : Type) : Type :=
| Resolved (a : A)
| Rejected.

Arguments Resolved {A} a.
Arguments Rejected {A}.

Definition andThen {A B} (p : Promise A) (k : A -> Promise B) : Promise B :=
  match p with
  | Resolved a => k a
  | Rejected => Rejected
  end.

(** [try { body } catch (error) { handler }] *)
Definition tryCatch {A} (body handler : Promise A) : Promise A :=
  match body with
  | Resolved a => Resolved a
  | Rejected => handler
  end.

(** [p.catch(() => v)] *)
Definition orElse {A} (p : Promise A) (v : A) : A :=
  match p with
  | Resolved a => a
  | Rejected => v
  end.

Declare Scope promise_scope.
Delimit Scope promise_scope with promise.
Notation "'await' x <- p ; k" := (andThen p (fun x => k))
  (at level 10, x name, p at level 100, k at level 200) : promise_scope.
Open Scope promise_scope.

(* ------------------------------------------------------------------ *)
(** ** lib/utils.js: the summary fetcher *)

(** What a [fetch] to the reader service comes to: the request fails, or a
    response arrives with a status and a body that [response.text()] either
    reads or fails to read. *)
Inductive SummaryFetch : Type :=
| SummaryNetworkError
| SummaryResponse (status : N) (text : Promise jsstring).

(** [response.ok] of the Fetch standard: status in 200..299. *)
Definition ok (status : N) : bool := ((200 <=? status) && (status <=? 299))%N.

Definition unableToGenerate : jsstring :=
  lit "Unable to generate summary for this URL.".

Definition unableWithStatus (status : N) : jsstring :=
  lit "Unable to generate summary for this URL. (Status: "
    ++ ofN status ++ lit ")".

Definition ellipsis : jsstring := lit "...".

(** [cleanUrl] of [generateSummary]. *)
Definition cleanUrl (url : jsstring) : jsstring :=
  if negb (startsWith (lit "http://") url)
     && negb (startsWith (lit "https://") url)
  then lit "https://" ++ url
  else url.

(** The address [generateSummary] requests. *)
Definition readerUrl (url : jsstring) : jsstring :=
  lit "https://r.jina.ai/" ++ cleanUrl url.

(** The [try] block of [generateSummary(url)]; [fetch] answers the request
    to the address it is given. *)
Definition generateSummary_try (fetch : jsstring -> SummaryFetch)
    (address : jsstring) : Promise jsstring :=
  match fetch (readerUrl address) with
  | SummaryNetworkError => Rejected
  | SummaryResponse status text =>
      if negb (ok status) then Resolved (unableWithStatus status)
      else
        await summary <- text;
        if (length summary =? 0)%nat || (length summary <? 10)%nat
        then Resolved unableToGenerate
        else
          let cleanSummary := trim summary in
          if (400 <? length cleanSummary)%nat
          then Resolved (substring0 400 cleanSummary ++ ellipsis)
          else Resolved cleanSummary
  end.

Definition generateSummary (fetch : jsstring -> SummaryFetch)
    (address : jsstring) : Promise jsstring :=
  tryCatch (generateSummary_try fetch address) (Resolved unableToGenerate).

(* ------------------------------------------------------------------ *)
(** ** What the JavaScript platform provides *)

(** The two fields of a parsed [URL] object the program reads. *)
Record URL : Type := { href : jsstring; hostname : jsstring }.

(** The WHATWG URL parser behind [new URL(s)] ([None] when it throws), the
    Unicode case mapping behind [s.toLowerCase()] and the percent-encoding
    of [encodeURIComponent(s)] (which throws on a lone surrogate) are taken
    as given. *)
Class Platform : Type := {
  parseURL : jsstring -> option URL;
  toLowerCase : jsstring -> jsstring;
  encodeURIComponent : jsstring -> Promise jsstring
}.

Section Utils.

Context `{Platform}.

(** [new URL(s)], which throws on a string that is not an absolute URL. *)
Definition newURL (s : jsstring) : Promise URL :=
  match parseURL s with
  | Some u => Resolved u
  | None => Rejected
  end.

(** [getFaviconUrl(url)] *)
Definition getFaviconUrl (address : jsstring) : jsstring :=
  orElse
    (await urlObj <- newURL address;
     Resolved (lit "https://www.google.com/s2/favicons?domain="
                 ++ hostname urlObj ++ lit "&sz=32"))
    (lit "/favicon.ico").

(** The body of a response of the title service as [response.json()] and
    the property read [data.title] see it: not JSON at all, the JSON value
    [null] (reading a property of it throws), or any other JSON value with
    its [title] property when that is a string ([None] when the property
    is missing, as on a number, an array or an object without it). *)
Inductive JsonBody : Type :=
| BodyNotJson
| BodyNull
| BodyData (title : option jsstring).

Inductive TitleFetch : Type :=
| TitleNetworkError
| TitleResponse (status : N) (body : JsonBody).

(** [await fetch(...)] *)
Definition fetched (resp : TitleFetch) : Promise JsonBody :=
  match resp with
  | TitleNetworkError => Rejected
  | TitleResponse _ body => Resolved body
  end.

(** [await response.json()] followed by the read of [data.title]. *)
Definition json_title (body : JsonBody) : Promise (option jsstring) :=
  match body with
  | BodyNotJson => Rejected
  | BodyNull => Rejected
  | BodyData t => Resolved t
  end.

(** Truthiness of a string-or-undefined value. *)
Definition truthy (v : option jsstring) : bool :=
  match v with
  | Some (_ :: _) => true
  | _ => false
  end.

(** [new URL(url).hostname] *)
Definition hostnameOf (address : jsstring) : Promise jsstring :=
  await u <- newURL address; Resolved (hostname u).

(** [getPageTitle(url)]; [fetch] answers the request to the address it
    is given.  The status of the response is never read. *)
Definition getPageTitle (fetch : jsstring -> TitleFetch)
    (address : jsstring) : Promise jsstring :=
  tryCatch
    (await query <- encodeURIComponent address;
     await body <- fetched (fetch (lit "/api/get-title?url=" ++ query));
     await t <- json_title body;
     match t with
     | Some s => if truthy t then Resolved s else hostnameOf address
     | None => hostnameOf address
     end)
    (hostnameOf address).

End Utils.

(* ------------------------------------------------------------------ *)
(** ** components/Dashboard.js: data *)

(** A bookmark [id]: the number [Date.now()] gives a placeholder, or the
    string the store assigns.  [===] never equates a number and a string. *)
Inductive Ident : Type :=
| IdNumber (n : N)
| IdString (s : jsstring).

Definition ident_eqb (a b : Ident) : bool :=
  match a, b with
  | IdNumber m, IdNumber n => N.eqb m n
  | IdString s, IdString t => Js.eqb s t
  | _, _ => false
  end.

(** An element of the [bookmarks] array.  [tags] may be [null] on a stored
    row; [isLoading] is [undefined], hence falsy, on a stored row. *)
Record Bookmark : Type := {
  id : Ident;
  url : jsstring;
  title : jsstring;
  summary : jsstring;
  favicon : jsstring;
  tags : option (list jsstring);
  created_at : jsstring;
  isLoading : bool
}.

(** The object handed to [supabase.from('bookmarks').insert]. *)
Record Row : Type := {
  row_user_id : jsstring;
  row_url : jsstring;
  row_title : jsstring;
  row_summary : jsstring;
  row_favicon : jsstring;
  row_tags : list jsstring
}.

(** The reply of the store to an insert: [error] set (or the request
    rejected), or the stored row [data[0]]. *)
Inductive InsertResult : Type :=
| InsertFailed
| Inserted (stored : Bookmark).

(** The calls a handler makes, in program order. *)
Inductive Call : Type :=
| SetBookmarks (next : list Bookmark)
| CallGetPageTitle (address : jsstring)
| CallGenerateSummary (address : jsstring)
| FetchersSettled (title summary : jsstring)
| StoreInsert (row : Row)
| StoreReplied (reply : InsertResult).

Definition isStoreCall (c : Call) : bool :=
  match c with
  | StoreInsert _ | StoreReplied _ => true
  | _ => false
  end.

Definition isFetchCall (c : Call) : bool :=
  match c with
  | CallGetPageTitle _ | CallGenerateSummary _ => true
  | _ => false
  end.

(** The state of the component that the handlers read and write, and the
    journal of the calls made so far. *)
Record Dashboard : Type := {
  bookmarks : list Bookmark;
  saving : bool;
  newUrl : jsstring;
  newTags : jsstring;
  error : jsstring;
  selectedTags : list jsstring;
  draggedItem : option Bookmark;
  journal : list Call
}.

(* ------------------------------------------------------------------ *)
(** ** Handlers: state passing with exceptions *)

Definition Handler (A : Type) : Type := Dashboard -> Promise A * Dashboard.

Definition ret {A} (a : A) : Handler A := fun st => (Resolved a, st).

Definition throw {A} : Handler A := fun st => (Rejected, st).

Definition bind {A B} (m : Handler A) (k : A -> Handler B) : Handler B :=
  fun st =>
    match m st with
    | (Resolved a, st') => k a st'
    | (Rejected, st') => (Rejected, st')
    end.

(** [try { body } catch (error) { handler }] around state changes: what the
    body did before it threw stays done. *)
Definition try_catch {A} (body handler : Handler A) : Handler A :=
  fun st =>
    match body st with
    | (Resolved a, st') => (Resolved a, st')
    | (Rejected, st') => handler st'
    end.

(** A value computed by code that may throw. *)
Definition lift {A} (p : Promise A) : Handler A := fun st => (p, st).

Definition gets {A} (f : Dashboard -> A) : Handler A :=
  fun st => (Resolved (f st), st).

Definition modify (f : Dashboard -> Dashboard) : Handler unit :=
  fun st => (Resolved tt, f st).

Declare Scope handler_scope.
Delimit Scope handler_scope with handler.
Notation "x <- m ;; k" := (bind m (fun x => k))
  (at level 100, m at next level, right associativity) : handler_scope.
Notation "m ;; k" := (bind m (fun _ => k))
  (at level 100, right associativity) : handler_scope.
Open Scope handler_scope.

Definition record (c : Call) : Handler unit :=
  modify (fun st =>
    {| bookmarks := bookmarks st; saving := saving st; newUrl := newUrl st;
       newTags := newTags st; error := error st;
       selectedTags := selectedTags st; draggedItem := draggedItem st;
       journal := journal st ++ [c] |}).

(** [setBookmarks(prev => f(prev))] *)
Definition setBookmarks (f : list Bookmark -> list Bookmark) : Handler unit :=
  modify (fun st =>
    {| bookmarks := f (bookmarks st); saving := saving st;
       newUrl := newUrl st; newTags := newTags st; error := error st;
       selectedTags := selectedTags st; draggedItem := draggedItem st;
       journal := journal st ++ [SetBookmarks (f (bookmarks st))] |}).

Definition setSaving (b : bool) : Handler unit :=
  modify (fun st =>
    {| bookmarks := bookmarks st; saving := b; newUrl := newUrl st;
       newTags := newTags st; error := error st;
       selectedTags := selectedTags st; draggedItem := draggedItem st;
       journal := journal st |}).

Definition setNewUrl (s : jsstring) : Handler unit :=
  modify (fun st =>
    {| bookmarks := bookmarks st; saving := saving st; newUrl := s;
       newTags := newTags st; error := error st;
       selectedTags := selectedTags st; draggedItem := draggedItem st;
       journal := journal st |}).

Definition setNewTags (s : jsstring) : Handler unit :=
  modify (fun st =>
    {| bookmarks := bookmarks st; saving := saving st; newUrl := newUrl st;
       newTags := s; error := error st;
       selectedTags := selectedTags st; draggedItem := draggedItem st;
       journal := journal st |}).

Definition setError (s : jsstring) : Handler unit :=
  modify (fun st =>
    {| bookmarks := bookmarks st; saving := saving st; newUrl := newUrl st;
       newTags := newTags st; error := s;
       selectedTags := selectedTags st; draggedItem := draggedItem st;
       journal := journal st |}).

Definition setSelectedTags (l : list jsstring) : Handler unit :=
  modify (fun st =>
    {| bookmarks := bookmarks st; saving := saving st; newUrl := newUrl st;
       newTags := newTags st; error := error st;
       selectedTags := l; draggedItem := draggedItem st;
       journal := journal st |}).

Definition setDraggedItem (d : option Bookmark) : Handler unit :=
  modify (fun st =>
    {| bookmarks := bookmarks st; saving := saving st; newUrl := newUrl st;
       newTags := newTags st; error := error st;
       selectedTags := selectedTags st; draggedItem := d;
       journal := journal st |}).

(** The state a handler leaves. *)
Definition exec {A} (m : Handler A) (st : Dashboard) : Dashboard := snd (m st).

(* ------------------------------------------------------------------ *)
(** ** components/Dashboard.js: [addBookmark] *)

Section Ingestion.

Context `{Platform}.

(** [!newUrl.trim()] *)
Definition isBlank (s : jsstring) : bool :=
  match trim s with
  | [] => true
  | _ :: _ => false
  end.

(** The address handed to [new URL]: the raw input when it starts with
    the four units [http], otherwise the raw input after [https://]. *)
Definition withScheme (urlToSave : jsstring) : jsstring :=
  if startsWith (lit "http") urlToSave then urlToSave
  else lit "https://" ++ urlToSave.

(** The comma (code unit 44) separated tag input, processed. *)
Definition processTags (tagsToSave : jsstring) : list jsstring :=
  filter (fun tag => (0 <? length tag)%nat)
    (map (fun tag => toLowerCase (trim tag)) (split 44 tagsToSave)).

(** The constants of one invocation that outlive an [await]. *)
Record Locals : Type := {
  urlToSave : jsstring;
  tagsToSave : jsstring;
  parsed : URL;
  tagList : list jsstring;
  tempId : N
}.

(** Where an invocation stands when it gives up control: waiting on
    [Promise.all] of the two fetchers, waiting on the store, or done. *)
Inductive Suspended : Type :=
| AwaitFetchers (l : Locals)
| AwaitInsert (l : Locals) (row : Row)
| Returned.

Definition failedToAdd : jsstring :=
  lit "Failed to add bookmark. Please check the URL.".

Definition placeholderBookmark (u : URL) (tagList : list jsstring)
    (tempId : N) (nowISO : jsstring) : Bookmark :=
  {| id := IdNumber tempId;
     url := href u;
     title := lit "Loading...";
     summary := lit "Generating summary...";
     favicon := getFaviconUrl (href u);
     tags := Some tagList;
     created_at := nowISO;
     isLoading := true |}.

(** [bookmark => !bookmark.isLoading] *)
Definition notLoading (bookmark : Bookmark) : bool :=
  negb (isLoading bookmark).

(** The [catch] block. *)
Definition onError (urlToSave tagsToSave : jsstring) : Handler Suspended :=
  setError failedToAdd;;
  setNewUrl urlToSave;;
  setNewTags tagsToSave;;
  setBookmarks (filter notLoading);;
  ret Returned.

(** A segment of the [try] block, with its [catch] and, once the
    invocation is over, its [finally]. *)
Definition guarded (urlToSave tagsToSave : jsstring)
    (segment : Handler Suspended) : Handler Suspended :=
  s <- try_catch segment (onError urlToSave tagsToSave);;
  match s with
  | Returned => setSaving false;; ret Returned
  | _ => ret s
  end.

(** From the call up to [await Promise.all]: both fetchers have been
    called, in the order of the array literal.  [now] is [Date.now()] and
    [nowISO] is [new Date().toISOString()]. *)
Definition addBookmark_enter (now : N) (nowISO : jsstring)
  : Handler Suspended :=
  typed <- gets newUrl;;
  if isBlank typed then ret Returned
  else
    setSaving true;;
    setError [];;
    urlToSave <- gets newUrl;;
    tagsToSave <- gets newTags;;
    setNewUrl [];;
    setNewTags [];;
    guarded urlToSave tagsToSave
      (u <- lift (newURL (withScheme urlToSave));;
       let tagList := processTags tagsToSave in
       let tempId := now in
       setBookmarks (cons (placeholderBookmark u tagList tempId nowISO));;
       record (CallGetPageTitle (href u));;
       record (CallGenerateSummary (href u));;
       ret (AwaitFetchers
              {| urlToSave := urlToSave; tagsToSave := tagsToSave;
                 parsed := u; tagList := tagList; tempId := tempId |})).

(** The object literal passed to [insert]. *)
Definition rowOf (user_id : jsstring) (l : Locals)
    (title summary : jsstring) : Row :=
  {| row_user_id := user_id;
     row_url := href (parsed l);
     row_title := title;
     row_summary := summary;
     row_favicon := getFaviconUrl (href (parsed l));
     row_tags := tagList l |}.

(** From the settlement of [Promise.all] up to the [await] on the store. *)
Definition addBookmark_afterFetch (user_id : jsstring) (l : Locals)
    (title summary : jsstring) : Handler Suspended :=
  guarded (urlToSave l) (tagsToSave l)
    (record (FetchersSettled title summary);;
     let row := rowOf user_id l title summary in
     record (StoreInsert row);;
     ret (AwaitInsert l row)).

(** [bookmark.id === tempId ? data[0] : bookmark] *)
Definition swap (tempId : N) (stored bookmark : Bookmark) : Bookmark :=
  if ident_eqb (id bookmark) (IdNumber tempId) then stored else bookmark.

(** From the reply of the store to the end. *)
Definition addBookmark_afterInsert (l : Locals) (reply : InsertResult)
  : Handler Suspended :=
  guarded (urlToSave l) (tagsToSave l)
    (record (StoreReplied reply);;
     match reply with
     | InsertFailed => throw
     | Inserted stored =>
         setBookmarks (map (swap (tempId l) stored));;
         ret Returned
     end).

(** What the world answers to one invocation. *)
Record Env : Type := {
  now : N;
  nowISO : jsstring;
  user : jsstring;
  fetchTitle : jsstring -> TitleFetch;
  fetchSummary : jsstring -> SummaryFetch;
  insert : Row -> InsertResult
}.

(** The two promises of [Promise.all], each with its [.catch]. *)
Definition settledTitle (env : Env) (l : Locals) : jsstring :=
  orElse (getPageTitle (fetchTitle env) (href (parsed l)))
    (href (parsed l)).

Definition settledSummary (env : Env) (l : Locals) : jsstring :=
  orElse (generateSummary (fetchSummary env) (href (parsed l)))
    (lit "Could not generate summary for this page.").

(** One suspended invocation, continued to its next [await]. *)
Definition resume (env : Env) (s : Suspended) : Handler Suspended :=
  match s with
  | AwaitFetchers l =>
      addBookmark_afterFetch (user env) l (settledTitle env l)
        (settledSummary env l)
  | AwaitInsert l row => addBookmark_afterInsert l (insert env row)
  | Returned => ret Returned
  end.

(** A suspended invocation continued; one that is over stays over. *)
Definition continue (env : Env) (p : Promise Suspended * Dashboard)
  : Promise Suspended * Dashboard :=
  match fst p with
  | Resolved s => resume env s (snd p)
  | Rejected => p
  end.

(** One invocation run from the call to its end with nothing in between. *)
Definition addBookmark (env : Env) : Handler Suspended :=
  s1 <- addBookmark_enter (now env) (nowISO env);;
  s2 <- resume env s1;;
  resume env s2.

End Ingestion.

(* ------------------------------------------------------------------ *)
(** ** components/Dashboard.js: the list controller *)

(** [arr.includes(tag)] on an array of strings. *)
Definition includes (arr : list jsstring) (tag : jsstring) : bool :=
  existsb (Js.eqb tag) arr.

(** The second effect: the distinct tags of the bookmarks, in the order a
    [Set] first meets them. *)
Definition addTag (seen : list jsstring) (tag : jsstring) : list jsstring :=
  if includes seen tag then seen else seen ++ [tag].

Definition availableTags (bs : list Bookmark) : list jsstring :=
  fold_left
    (fun seen bookmark =>
       match tags bookmark with
       | Some ts => fold_left addTag ts seen
       | None => seen
       end)
    bs [].

(** [toggleTagFilter(tag)] *)
Definition toggleTagFilter (tag : jsstring) : Handler unit :=
  selected <- gets selectedTags;;
  if includes selected tag
  then setSelectedTags (filter (fun t => negb (Js.eqb t tag)) selected)
  else setSelectedTags (selected ++ [tag]).

(** [bookmark.tags && bookmark.tags.some(tag => selectedTags.includes(tag))] *)
Definition matchesFilter (selected : list jsstring) (bookmark : Bookmark)
  : bool :=
  match tags bookmark with
  | Some ts => existsb (includes selected) ts
  | None => false
  end.

(** [filteredBookmarks], recomputed at every render. *)
Definition filteredBookmarks (st : Dashboard) : list Bookmark :=
  match selectedTags st with
  | [] => bookmarks st
  | _ :: _ => filter (matchesFilter (selectedTags st)) (bookmarks st)
  end.

(** [arr.findIndex(p)]: the first index that satisfies [p], or [-1]. *)
Fixpoint findIndex {A} (p : A -> bool) (arr : list A) : Z :=
  match arr with
  | [] => (-1)%Z
  | x :: rest =>
      if p x then 0%Z
      else match findIndex p rest with
           | Zneg _ => (-1)%Z
           | i => (i + 1)%Z
           end
  end.

(** The index at which [arr.splice(start, ...)] starts. *)
Definition spliceStart {A} (start : Z) (arr : list A) : nat :=
  if (start <? 0)%Z
  then Z.to_nat (Z.max (Z.of_nat (length arr) + start) 0)
  else Nat.min (Z.to_nat start) (length arr).

(** [arr.splice(start, 1)]: the removed elements and what is left. *)
Definition spliceOut {A} (start : Z) (arr : list A) : list A * list A :=
  let k := spliceStart start arr in
  (firstn 1 (skipn k arr), firstn k arr ++ skipn (k + 1) arr).

(** [arr.splice(start, 0, item)] *)
Definition spliceIn {A} (start : Z) (item : A) (arr : list A) : list A :=
  let k := spliceStart start arr in
  firstn k arr ++ item :: skipn k arr.

(** [handleDrop(e, targetBookmark)].  [movedBookmark] is [undefined] only
    when the filtered view is empty, which it is not when a drop lands on
    one of its rendered items; the model then leaves the copy as it is. *)
Definition handleDrop (targetBookmark : Bookmark) : Handler unit :=
  dragged <- gets draggedItem;;
  match dragged with
  | None => setDraggedItem None
  | Some item =>
      if ident_eqb (id item) (id targetBookmark) then setDraggedItem None
      else
        view <- gets filteredBookmarks;;
        let draggedIndex :=
          findIndex (fun b => ident_eqb (id b) (id item)) view in
        let targetIndex :=
          findIndex (fun b => ident_eqb (id b) (id targetBookmark)) view in
        let (removed, rest) := spliceOut draggedIndex view in
        let newBookmarks :=
          match removed with
          | movedBookmark :: _ => spliceIn targetIndex movedBookmark rest
          | [] => rest
          end in
        setBookmarks (fun _ => newBookmarks);;
        setDraggedItem None
  end.

(** [handleDragStart(e, bookmark)] *)
Definition handleDragStart (bookmark : Bookmark) : Handler unit :=
  setDraggedItem (Some bookmark).

(** [clearTagFilters()] *)
Definition clearTagFilters : Handler unit := setSelectedTags [].

(* ------------------------------------------------------------------ *)
(** ** components/Dashboard.js: the handlers that wait on the store *)

(** The requests these handlers send, in program order. *)
Inductive Request : Type :=
| StoreSelect (user_id : jsstring)
| StoreDelete (target : Ident) (user_id : jsstring)
| SignOut.

(** The state of the component in full: what [Dashboard] holds, and the
    three flags [loading], [deleting] and [signingOut]. *)
Record Page : Type := {
  dash : Dashboard;
  loading : bool;
  deleting : option Ident;
  signingOut : bool;
  requests : list Request
}.

(** The component as [useState] first sets it. *)
Definition mounted : Page :=
  {| dash :=
       {| bookmarks := []; saving := false; newUrl := []; newTags := [];
          error := []; selectedTags := []; draggedItem := None;
          journal := [] |};
     loading := true;
     deleting := None;
     signingOut := false;
     requests := [] |}.

Module PageHandlers.

Definition PageHandler (A : Type) : Type := Page -> Promise A * Page.

Definition ret {A} (a : A) : PageHandler A := fun pg => (Resolved a, pg).

Definition throw {A} : PageHandler A := fun pg => (Rejected, pg).

Definition bind {A B} (m : PageHandler A) (k : A -> PageHandler B)
  : PageHandler B :=
  fun pg =>
    match m pg with
    | (Resolved a, pg') => k a pg'
    | (Rejected, pg') => (Rejected, pg')
    end.

Definition try_catch {A} (body handler : PageHandler A) : PageHandler A :=
  fun pg =>
    match body pg with
    | (Resolved a, pg') => (Resolved a, pg')
    | (Rejected, pg') => handler pg'
    end.

(** A handler of the [Dashboard] part, run inside the page. *)
Definition inDashboard {A} (m : Handler A) : PageHandler A :=
  fun pg =>
    let (r, d) := m (dash pg) in
    (r, {| dash := d; loading := loading pg; deleting := deleting pg;
           signingOut := signingOut pg; requests := requests pg |}).

Definition setLoading (b : bool) : PageHandler unit :=
  fun pg =>
    (Resolved tt,
     {| dash := dash pg; loading := b; deleting := deleting pg;
        signingOut := signingOut pg; requests := requests pg |}).

Definition setDeleting (d : option Ident) : PageHandler unit :=
  fun pg =>
    (Resolved tt,
     {| dash := dash pg; loading := loading pg; deleting := d;
        signingOut := signingOut pg; requests := requests pg |}).

Definition setSigningOut (b : bool) : PageHandler unit :=
  fun pg =>
    (Resolved tt,
     {| dash := dash pg; loading := loading pg; deleting := deleting pg;
        signingOut := b; requests := requests pg |}).

Definition send (r : Request) : PageHandler unit :=
  fun pg =>
    (Resolved tt,
     {| dash := dash pg; loading := loading pg; deleting := deleting pg;
        signingOut := signingOut pg; requests := requests pg ++ [r] |}).

(** The page a handler leaves. *)
Definition exec {A} (m : PageHandler A) (pg : Page) : Page := snd (m pg).

End PageHandlers.

Declare Scope page_scope.
Delimit Scope page_scope with page.
Notation "x <- m ;; k" := (PageHandlers.bind m (fun x => k))
  (at level 100, m at next level, right associativity) : page_scope.
Notation "m ;; k" := (PageHandlers.bind m (fun _ => k))
  (at level 100, right associativity) : page_scope.

Import PageHandlers(PageHandler, inDashboard, setLoading, setDeleting,
                    setSigningOut, send).

(** The reply of the store to the select of [fetchBookmarks]: [error] set
    (or the request rejected), or [data], which may be [null]. *)
Inductive SelectResult : Type :=
| SelectFailed
| Selected (data : option (list Bookmark)).

(** The reply of the store to a delete. *)
Inductive DeleteResult : Type :=
| DeleteFailed
| Deleted.

(** [fetchBookmarks()] up to its [await]. *)
Definition fetchBookmarks_enter (user_id : jsstring) : PageHandler unit :=
  send (StoreSelect user_id).

(** [fetchBookmarks()] from the reply of the store on. *)
Definition fetchBookmarks_after (reply : SelectResult) : PageHandler unit :=
  (PageHandlers.try_catch
     match reply with
     | SelectFailed => PageHandlers.throw
     | Selected data =>
         inDashboard
           (setBookmarks
              (fun _ => match data with Some rows => rows | None => [] end))
     end
     (inDashboard (setError (lit "Failed to load bookmarks")));;
   setLoading false)%page.

Definition fetchBookmarks (user_id : jsstring) (reply : SelectResult)
  : PageHandler unit :=
  (fetchBookmarks_enter user_id;; fetchBookmarks_after reply)%page.

(** [bookmark => bookmark.id !== id] *)
Definition otherThan (target : Ident) (bookmark : Bookmark) : bool :=
  negb (ident_eqb (id bookmark) target).

(** [deleteBookmark(id)] up to its [await]. *)
Definition deleteBookmark_enter (user_id : jsstring) (target : Ident)
  : PageHandler unit :=
  (setDeleting (Some target);;
   inDashboard (setError []);;
   send (StoreDelete target user_id))%page.

(** [deleteBookmark(id)] from the reply of the store on. *)
Definition deleteBookmark_after (target : Ident) (reply : DeleteResult)
  : PageHandler unit :=
  (PageHandlers.try_catch
     match reply with
     | DeleteFailed => PageHandlers.throw
     | Deleted => inDashboard (setBookmarks (filter (otherThan target)))
     end
     (inDashboard (setError (lit "Failed to delete bookmark")));;
   setDeleting None)%page.

Definition deleteBookmark (user_id : jsstring) (reply : DeleteResult)
    (target : Ident) : PageHandler unit :=
  (deleteBookmark_enter user_id target;;
   deleteBookmark_after target reply)%page.

(** [handleSignOut()]; [reply] is what [signOut()] settles to. *)
Definition handleSignOut (reply : Promise unit) : PageHandler unit :=
  (setSigningOut true;;
   send SignOut;;
   PageHandlers.try_catch (fun pg => (reply, pg))
     (inDashboard (setError (lit "Failed to sign out")));;
   setSigningOut false)%page.

(* ------------------------------------------------------------------ *)
(** ** components/Dashboard.js: what the rendered page lets happen *)

(** Both inputs of the form carry [disabled={saving}]. *)
Definition inputsEnabled (st : Dashboard) : bool := negb (saving st).

(** The submit button carries [disabled={saving || !newUrl.trim()}], and a
    form whose submit button is disabled is not submitted. *)
Definition submitEnabled (st : Dashboard) : bool :=
  negb (saving st || isBlank (newUrl st)).

(** The page, and the invocation of [addBookmark] that has given up control
    and waits, if there is one. *)
Record World : Type := { current : Page; adding : Suspended }.

(** The temporary id of the invocation that waits. *)
Definition inFlight (s : Suspended) : option N :=
  match s with
  | AwaitFetchers l => Some (tempId l)
  | AwaitInsert l _ => Some (tempId l)
  | Returned => None
  end.

(** A row as the store returns it: the table has no [isLoading] column. *)
Definition unflagged (bookmark : Bookmark) : Prop :=
  isLoading bookmark = false.

(** Every pending entry of [bs] carries the id [owner]; none is pending when
    there is no owner. *)
Definition pendingOwnedBy (owner : option N) (bs : list Bookmark) : Prop :=
  forall b,
    In b bs -> isLoading b = true ->
    match owner with
    | Some clock => id b = IdNumber clock
    | None => False
    end.

(** The saving flag is up exactly while an invocation waits, and the pending
    entries are that invocation's. *)
Definition consistent (w : World) : Prop :=
  saving (dash (current w))
  = match inFlight (adding w) with Some _ => true | None => false end
  /\ pendingOwnedBy (inFlight (adding w)) (bookmarks (dash (current w))).

Section Component.

Context `{Platform}.

(** The worlds the component can be in: it is mounted, and then each event
    the rendered page delivers runs its handler, and each awaited reply runs
    the rest of the handler that waits for it.  The form delivers its events
    only while it is enabled.  Drops, deletes and reloads are taken at any
    time and with any argument, which allows at least what the page
    allows. *)
Inductive Reachable : World -> Prop :=
| reach_mounted :
    Reachable {| current := mounted; adding := Returned |}
| reach_typeUrl w s :
    Reachable w ->
    inputsEnabled (dash (current w)) = true ->
    Reachable
      {| current := PageHandlers.exec (inDashboard (setNewUrl s)) (current w);
         adding := adding w |}
| reach_typeTags w s :
    Reachable w ->
    inputsEnabled (dash (current w)) = true ->
    Reachable
      {| current := PageHandlers.exec (inDashboard (setNewTags s)) (current w);
         adding := adding w |}
| reach_submit w clock iso s pg :
    Reachable w ->
    submitEnabled (dash (current w)) = true ->
    inDashboard (addBookmark_enter clock iso) (current w) = (Resolved s, pg) ->
    Reachable {| current := pg; adding := s |}
| reach_settled w env s pg :
    Reachable w ->
    (forall row stored, insert env row = Inserted stored -> unflagged stored) ->
    inDashboard (resume env (adding w)) (current w) = (Resolved s, pg) ->
    Reachable {| current := pg; adding := s |}
| reach_toggle w tag :
    Reachable w ->
    Reachable
      {| current := PageHandlers.exec (inDashboard (toggleTagFilter tag)) (current w);
         adding := adding w |}
| reach_clear w :
    Reachable w ->
    Reachable
      {| current := PageHandlers.exec (inDashboard clearTagFilters) (current w);
         adding := adding w |}
| reach_dragStart w bookmark :
    Reachable w ->
    Reachable
      {| current :=
           PageHandlers.exec (inDashboard (handleDragStart bookmark)) (current w);
         adding := adding w |}
| reach_drop w target :
    Reachable w ->
    Reachable
      {| current := PageHandlers.exec (inDashboard (handleDrop target)) (current w);
         adding := adding w |}
| reach_deleteSent w user_id target :
    Reachable w ->
    Reachable
      {| current := PageHandlers.exec (deleteBookmark_enter user_id target) (current w);
         adding := adding w |}
| reach_deleteReplied w target reply :
    Reachable w ->
    Reachable
      {| current := PageHandlers.exec (deleteBookmark_after target reply) (current w);
         adding := adding w |}
| reach_loadSent w user_id :
    Reachable w ->
    Reachable
      {| current := PageHandlers.exec (fetchBookmarks_enter user_id) (current w);
         adding := adding w |}
| reach_loadReplied w reply :
    Reachable w ->
    (forall rows, reply = Selected (Some rows) -> Forall unflagged rows) ->
    Reachable
      {| current := PageHandlers.exec (fetchBookmarks_after reply) (current w);
         adding := adding w |}
| reach_signOut w reply :
    Reachable w ->
    Reachable
      {| current := PageHandlers.exec (handleSignOut reply) (current w);
         adding := adding w |}.


End Component.



(* ------------------------------------------------------------------ *)
(** ** A small platform to run the handlers on *)

(** A reader of addresses of the shape [http://host/...] or
    [https://host/...] without white space, ASCII lower-casing, and an
    encoder that leaves its argument alone: enough to evaluate the program
    on the inputs used below. *)
Module Sample.

Fixpoint dropPrefix (p s : jsstring) : option jsstring :=
  match p, s with
  | [], _ => Some s
  | c :: p', d :: s' => if N.eqb c d then dropPrefix p' s' else None
  | _ :: _, [] => None
  end.

Fixpoint upTo (stop : N) (s : jsstring) : jsstring :=
  match s with
  | [] => []
  | c :: s' => if N.eqb c stop then [] else c :: upTo stop s'
  end.

Definition afterScheme (s : jsstring) : option jsstring :=
  match dropPrefix (lit "https://") s with
  | Some rest => Some rest
  | None => dropPrefix (lit "http://") s
  end.

Definition parse (s : jsstring) : option URL :=
  match afterScheme s with
  | None => None
  | Some rest =>
      let host := upTo 47 rest in
      if existsb isWhite s then None
      else match host with
           | [] => None
           | _ :: _ =>
               Some {| href := if (length host =? length rest)%nat
                               then s ++ lit "/" else s;
                       hostname := host |}
           end
  end.

Definition lowerUnit (c : N) : N :=
  if ((65 <=? c) && (c <=? 90))%N then (c + 32)%N else c.

Definition platform : Platform :=
  {| parseURL := parse;
     toLowerCase := map lowerUnit;
     encodeURIComponent := fun s => Resolved s |}.

(** A stored row as the store returns it for an inserted [Row]. *)
Definition storedRow (rowId : jsstring) (row : Row) : Bookmark :=
  {| id := IdString rowId;
     url := row_url row;
     title := row_title row;
     summary := row_summary row;
     favicon := row_favicon row;
     tags := Some (row_tags row);
     created_at := lit "2025-01-01T00:00:00.000Z";
     isLoading := false |}.

(** An empty dashboard in which [rawUrl] and [rawTags] have been typed. *)
Definition typed (rawUrl rawTags : jsstring) (bs : list Bookmark)
  : Dashboard :=
  {| bookmarks := bs; saving := false; newUrl := rawUrl;
     newTags := rawTags; error := []; selectedTags := [];
     draggedItem := None; journal := [] |}.

(** A world that answers every request the same way. *)
Definition env (clock : N) (titleReply : TitleFetch)
    (summaryReply : SummaryFetch) (store : Row -> InsertResult) : Env :=
  {| now := clock;
     nowISO := lit "2025-01-01T00:00:00.000Z";
     user := lit "user-1";
     fetchTitle := fun _ => titleReply;
     fetchSummary := fun _ => summaryReply;
     insert := store |}.

Definition titled (t : string) : TitleFetch :=
  TitleResponse 200 (BodyData (Some (lit t))).

Definition page (n : nat) : SummaryFetch :=
  SummaryResponse 200 (Resolved (repeat 120%N n)).

Definition blankPage : SummaryFetch :=
  SummaryResponse 200 (Resolved (repeat 32%N 12)).

Definition accept (rowId : string) (row : Row) : InsertResult :=
  Inserted (storedRow (lit rowId) row).

Definition refuse (row : Row) : InsertResult := InsertFailed.

(** A stored bookmark named [name] with the tags [ts]. *)
Definition saved (name : string) (ts : list string) : Bookmark :=
  {| id := IdString (lit name);
     url := lit "https://example.com/" ++ lit name;
     title := lit name;
     summary := lit "A page.";
     favicon := lit "/favicon.ico";
     tags := Some (map lit ts);
     created_at := lit "2025-01-01T00:00:00.000Z";
     isLoading := false |}.

(** A dashboard at rest showing [bs] under the filter [selected], with
    [dragged] picked up. *)
Definition board (bs : list Bookmark) (selected : list string)
    (dragged : option Bookmark) : Dashboard :=
  {| bookmarks := bs; saving := false; newUrl := []; newTags := [];
     error := []; selectedTags := map lit selected;
     draggedItem := dragged; journal := [] |}.

(** The form filled in again, as [onChange] of its two inputs does. *)
Definition retype (rawUrl rawTags : string) (st : Dashboard) : Dashboard :=
  exec (setNewUrl (lit rawUrl);; setNewTags (lit rawTags)) st.

(** A page at rest around the dashboard [d]. *)
Definition screen (d : Dashboard) : Page :=
  {| dash := d; loading := false; deleting := None; signingOut := false;
     requests := [] |}.

(** The four bookmarks of the filter example: tagged a, b, a and b, and
    not tagged. *)
Definition four : list Bookmark :=
  [saved "first" ["a"]; saved "second" ["b"];
   saved "third" ["a"; "b"]; saved "fourth" []]%string.

(** The page once the user's bookmarks are loaded. *)
Definition loaded : World :=
  {| current :=
       PageHandlers.exec
         (fetchBookmarks_after (Selected (Some four)))
         (PageHandlers.exec (fetchBookmarks_enter (lit "user-1")) mounted);
     adding := Returned |}.

(** [example.com] and the tags [a,b] typed into the form. *)
Definition filled : World :=
  {| current :=
       PageHandlers.exec (inDashboard (setNewTags (lit "a,b")))
         (PageHandlers.exec (inDashboard (setNewUrl (lit "example.com")))
            (current loaded));
     adding := Returned |}.

(** The form submitted at the clock reading 7: the invocation waits for its
    fetchers, and then for the store. *)
Definition submitted : World :=
  {| current :=
       snd (inDashboard
              (@addBookmark_enter platform 7 (lit "2025-01-01T00:00:00.000Z"))
              (current filled));
     adding :=
       AwaitFetchers
         {| urlToSave := lit "example.com"; tagsToSave := lit "a,b";
            parsed := {| href := lit "https://example.com/";
                         hostname := lit "example.com" |};
            tagList := [lit "a"; lit "b"]; tempId := 7 |} |}.

Definition atStore : World :=
  let env := env 7 (titled "Example") (page 50) refuse in
  let l :=
    {| urlToSave := lit "example.com"; tagsToSave := lit "a,b";
       parsed := {| href := lit "https://example.com/";
                    hostname := lit "example.com" |};
       tagList := [lit "a"; lit "b"]; tempId := 7 |} in
  {| current :=
       snd (inDashboard (@resume platform env (AwaitFetchers l))
              (current submitted));
     adding :=
       AwaitInsert l
         (@rowOf platform (lit "user-1") l (lit "Example")
            (repeat 120%N 50)) |}.

End Sample.

(** Runs a page handler on a symbolic page. *)
Ltac run_page :=
  unfold PageHandlers.exec, deleteBookmark, deleteBookmark_enter,
    deleteBookmark_after, fetchBookmarks, fetchBookmarks_enter,
    fetchBookmarks_after, handleSignOut, PageHandlers.bind,
    PageHandlers.try_catch, PageHandlers.throw, inDashboard, setDeleting,
    setLoading, setSigningOut, send, setError, setBookmarks, modify;
  cbn -[lit otherThan].

(* ------------------------------------------------------------------ *)
(** ** Facts about strings *)

Lemma trimStart_length (s : jsstring) : length (trimStart s) <= length s.
Proof.
  induction s as [|c s IH]; simpl; [lia|].
  destruct (isWhite c); simpl; lia.
Qed.

Lemma trim_length (s : jsstring) : length (trim s) <= length s.
Proof.
  unfold trim, trimEnd.
  rewrite length_rev.
  etransitivity; [apply trimStart_length|].
  rewrite length_rev. apply trimStart_length.
Qed.

Lemma contains_middle (a t b : jsstring) : contains t (a ++ t ++ b).
Proof. exists a, b. reflexivity. Qed.

Lemma ellipsis_length : length ellipsis = 3.
Proof. reflexivity. Qed.

(* ------------------------------------------------------------------ *)
(** ** The summary fetcher *)

Section Summary.

Variable fetch : jsstring -> SummaryFetch.
Variable address : jsstring.

Lemma generateSummary_not_ok (status : N) (text : Promise jsstring) :
  fetch (readerUrl address) = SummaryResponse status text ->
  ok status = false ->
  generateSummary fetch address = Resolved (unableWithStatus status).
Proof.
  intros Hf Hok. unfold generateSummary, generateSummary_try.
  rewrite Hf, Hok. reflexivity.
Qed.

Lemma generateSummary_body (status : N) (body : jsstring) :
  fetch (readerUrl address) = SummaryResponse status (Resolved body) ->
  ok status = true ->
  generateSummary fetch address =
  Resolved
    (if (length body <? 10)%nat then unableToGenerate
     else if (400 <? length (trim body))%nat
          then firstn 400 (trim body) ++ ellipsis
          else trim body).
Proof.
  intros Hf Hok. unfold generateSummary, generateSummary_try.
  rewrite Hf, Hok. simpl.
  destruct (length body) as [|n] eqn:E; [reflexivity|].
  simpl (_ =? _)%nat. rewrite orb_false_l.
  destruct (S n <? 10)%nat; [reflexivity|].
  destruct (400 <? length (trim body))%nat; reflexivity.
Qed.

Lemma generateSummary_settles :
  exists s, generateSummary fetch address = Resolved s.
Proof.
  unfold generateSummary.
  destruct (generateSummary_try fetch address) as [s|]; simpl; eauto.
Qed.

End Summary.

(** C3.  Whatever the fetch comes to, [generateSummary] resolves as follows:
    to the fallback that carries the status code when the response is not a
    success; to the generic "unable to generate" fallback when the request
    fails, when the body cannot be read, or when the body has fewer than 10
    units (the empty body included); otherwise to the trimmed body, cut to
    its first 400 units followed by the ellipsis (403 units in all) when the
    trimmed body has more than 400 units, and as it is when it has not. *)
Theorem generateSummary_policy (fetch : jsstring -> SummaryFetch)
    (address : jsstring) :
  (fetch (readerUrl address) = SummaryNetworkError ->
   generateSummary fetch address = Resolved unableToGenerate)
  /\ (forall status text,
        fetch (readerUrl address) = SummaryResponse status text ->
        ok status = false ->
        generateSummary fetch address = Resolved (unableWithStatus status)
        /\ contains (ofN status) (unableWithStatus status))
  /\ (forall status,
        fetch (readerUrl address) = SummaryResponse status Rejected ->
        ok status = true ->
        generateSummary fetch address = Resolved unableToGenerate)
  /\ (forall status body,
        fetch (readerUrl address) = SummaryResponse status (Resolved body) ->
        ok status = true ->
        (length body < 10 ->
         generateSummary fetch address = Resolved unableToGenerate)
        /\ (10 <= length body -> 400 < length (trim body) ->
            exists s,
              generateSummary fetch address = Resolved s
              /\ length s = 403
              /\ firstn 400 s = firstn 400 (trim body)
              /\ skipn 400 s = ellipsis)
        /\ (10 <= length body -> length (trim body) <= 400 ->
            generateSummary fetch address = Resolved (trim body))).
Proof.
  split; [|split; [|split]].
  - intros Hf. unfold generateSummary, generateSummary_try.
    rewrite Hf. reflexivity.
  - intros status text Hf Hok. split.
    + eapply generateSummary_not_ok; eassumption.
    + apply contains_middle.
  - intros status Hf Hok. unfold generateSummary, generateSummary_try.
    rewrite Hf, Hok. reflexivity.
  - intros status body Hf Hok.
    rewrite (generateSummary_body _ _ _ _ Hf Hok). split; [|split].
    + intros Hlen. apply Nat.ltb_lt in Hlen. rewrite Hlen. reflexivity.
    + intros Hlen Hlong.
      assert (E1 : (length body <? 10)%nat = false)
        by (apply Nat.ltb_ge; lia).
      assert (E2 : (400 <? length (trim body))%nat = true)
        by (apply Nat.ltb_lt; lia).
      rewrite E1, E2.
      assert (L : length (firstn 400 (trim body)) = 400)
        by (rewrite length_firstn; lia).
      exists (firstn 400 (trim body) ++ ellipsis). repeat split.
      * rewrite length_app, L, ellipsis_length. reflexivity.
      * rewrite firstn_app, L, Nat.sub_diag, firstn_O, app_nil_r.
        rewrite firstn_firstn, Nat.min_id. reflexivity.
      * rewrite skipn_app, L, Nat.sub_diag, skipn_O.
        rewrite skipn_all2 by lia. reflexivity.
    + intros Hlen Hshort.
      assert (E1 : (length body <? 10)%nat = false)
        by (apply Nat.ltb_ge; lia).
      assert (E2 : (400 <? length (trim body))%nat = false)
        by (apply Nat.ltb_ge; lia).
      rewrite E1, E2. reflexivity.
Qed.

(** The policy on the bodies the specification names: 500 units, 50 units,
    5 units, and the status 404. *)
Lemma generateSummary_policy_witness :
  (exists s,
     generateSummary (fun _ => Sample.page 500) (lit "https://example.com/")
     = Resolved s
     /\ length s = 403
     /\ firstn 400 s = firstn 400 (trim (repeat 120%N 500))
     /\ skipn 400 s = ellipsis)
  /\ generateSummary (fun _ => Sample.page 50) (lit "https://example.com/")
     = Resolved (trim (repeat 120%N 50))
  /\ generateSummary (fun _ => Sample.page 5) (lit "https://example.com/")
     = Resolved unableToGenerate
  /\ generateSummary (fun _ => SummaryResponse 404 (Resolved []))
       (lit "https://example.com/")
     = Resolved (unableWithStatus 404)
  /\ generateSummary (fun _ => SummaryNetworkError)
       (lit "https://example.com/")
     = Resolved unableToGenerate.
Proof.
  split; [|split; [|split; [|split]]].
  - apply (proj2 (proj2 (proj2
      (generateSummary_policy (fun _ => Sample.page 500)
         (lit "https://example.com/")))) 200%N (repeat 120%N 500)
      eq_refl eq_refl).
    + vm_compute. lia.
    + vm_compute. lia.
  - apply (proj2 (proj2 (proj2
      (generateSummary_policy (fun _ => Sample.page 50)
         (lit "https://example.com/")))) 200%N (repeat 120%N 50)
      eq_refl eq_refl).
    + vm_compute. lia.
    + vm_compute. lia.
  - apply (proj2 (proj2 (proj2
      (generateSummary_policy (fun _ => Sample.page 5)
         (lit "https://example.com/")))) 200%N (repeat 120%N 5)
      eq_refl eq_refl).
    vm_compute. lia.
  - apply (proj1 (proj2
      (generateSummary_policy (fun _ => SummaryResponse 404 (Resolved []))
         (lit "https://example.com/"))) 404%N (Resolved [])
      eq_refl eq_refl).
  - apply (proj1
      (generateSummary_policy (fun _ => SummaryNetworkError)
         (lit "https://example.com/")) eq_refl).
Defined.

(** C10.  The ten-unit test of [generateSummary] reads the length of the
    body as received, before trimming: a body of at least ten units whose
    trimmed form has fewer than ten is answered with that trimmed form,
    never with the "unable to generate" fallback.  Twelve spaces give the
    empty string, and [addBookmark] then hands the store a row whose summary
    is empty. *)
Theorem generateSummary_tests_untrimmed_length
    (fetch : jsstring -> SummaryFetch) (address : jsstring)
    (status : N) (body : jsstring) :
  fetch (readerUrl address) = SummaryResponse status (Resolved body) ->
  ok status = true ->
  10 <= length body ->
  length (trim body) < 10 ->
  generateSummary fetch address = Resolved (trim body)
  /\ trim body <> unableToGenerate
  /\ exists row,
       In (StoreInsert row)
          (journal
             (exec
                (@addBookmark Sample.platform
                   (Sample.env 1 (Sample.titled "Example") Sample.blankPage
                      (Sample.accept "row-1")))
                (Sample.typed (lit "example.com") (lit "news") [])))
       /\ row_summary row = [].
Proof.
  intros Hf Hok Hlen Htrim. split; [|split].
  - rewrite (generateSummary_body _ _ _ _ Hf Hok).
    assert (E1 : (length body <? 10)%nat = false)
      by (apply Nat.ltb_ge; lia).
    assert (E2 : (400 <? length (trim body))%nat = false)
      by (apply Nat.ltb_ge; lia).
    rewrite E1, E2. reflexivity.
  - intros E. rewrite E in Htrim. vm_compute in Htrim. lia.
  - eexists. split.
    + vm_compute. do 4 right. left. reflexivity.
    + reflexivity.
Qed.

Lemma generateSummary_tests_untrimmed_length_witness :
  generateSummary (fun _ => Sample.blankPage) (lit "https://example.com/")
  = Resolved [].
Proof.
  apply (generateSummary_tests_untrimmed_length (fun _ => Sample.blankPage)
           (lit "https://example.com/") 200%N (repeat 32%N 12)
           eq_refl eq_refl).
  - vm_compute. lia.
  - vm_compute. lia.
Defined.

(* ------------------------------------------------------------------ *)
(** ** The tag filter *)

Lemma eqb_eq (s t : jsstring) : Js.eqb s t = true <-> s = t.
Proof.
  revert t. induction s as [|c s IH]; intros [|d t]; simpl;
    try (split; [discriminate|discriminate]); [tauto|].
  rewrite andb_true_iff, N.eqb_eq, IH.
  split; [intros [-> ->]; reflexivity | intros E; inversion E; auto].
Qed.

Lemma includes_In (arr : list jsstring) (tag : jsstring) :
  includes arr tag = true <-> In tag arr.
Proof.
  unfold includes. rewrite existsb_exists. split.
  - intros (t & Ht & E). apply eqb_eq in E. subst. exact Ht.
  - intros Ht. exists tag. split; [exact Ht|]. apply eqb_eq. reflexivity.
Qed.

Lemma matchesFilter_spec (selected : list jsstring) (b : Bookmark) :
  matchesFilter selected b = true <->
  exists ts tag, tags b = Some ts /\ In tag ts /\ In tag selected.
Proof.
  unfold matchesFilter. destruct (tags b) as [ts|].
  - rewrite existsb_exists. split.
    + intros (tag & Hin & Hsel). apply includes_In in Hsel.
      exists ts, tag. auto.
    + intros (ts' & tag & E & Hin & Hsel). inversion E; subst.
      exists tag. split; [exact Hin|]. apply includes_In. exact Hsel.
  - split; [discriminate|]. intros (ts & tag & E & _). discriminate.
Qed.

(** C8.  With no tag selected the filtered view is the whole list.  With
    tags selected it is the list filtered, in order, to the bookmarks that
    carry at least one selected tag.  On bookmarks tagged a, b, a and b, and
    untagged: selecting a shows the first and third, selecting a and b shows
    the first three, selecting nothing shows all four. *)
Theorem filteredBookmarks_any_tag (st : Dashboard) :
  (selectedTags st = [] -> filteredBookmarks st = bookmarks st)
  /\ (selectedTags st <> [] ->
      filteredBookmarks st
      = filter (matchesFilter (selectedTags st)) (bookmarks st)
      /\ forall b,
           In b (filteredBookmarks st) <->
           In b (bookmarks st)
           /\ exists ts tag,
                tags b = Some ts /\ In tag ts /\ In tag (selectedTags st))
  /\ filteredBookmarks (Sample.board Sample.four ["a"%string] None)
     = [Sample.saved "first" ["a"%string];
        Sample.saved "third" ["a"; "b"]%string]
  /\ filteredBookmarks (Sample.board Sample.four ["a"; "b"]%string None)
     = [Sample.saved "first" ["a"%string];
        Sample.saved "second" ["b"%string];
        Sample.saved "third" ["a"; "b"]%string]
  /\ filteredBookmarks (Sample.board Sample.four [] None) = Sample.four.
Proof.
  split; [|split; [|repeat split]].
  - intros E. unfold filteredBookmarks. rewrite E. reflexivity.
  - intros NE.
    assert (E : filteredBookmarks st
                = filter (matchesFilter (selectedTags st)) (bookmarks st)).
    { unfold filteredBookmarks.
      destruct (selectedTags st); [congruence | reflexivity]. }
    split; [exact E|]. intros b.
    rewrite E, filter_In, matchesFilter_spec. reflexivity.
Qed.

Lemma filteredBookmarks_any_tag_witness :
  filteredBookmarks (Sample.board Sample.four [] None) = Sample.four
  /\ forall b,
       In b (filteredBookmarks (Sample.board Sample.four ["b"%string] None))
       <-> In b Sample.four
           /\ exists ts tag,
                tags b = Some ts /\ In tag ts /\ In tag [lit "b"].
Proof.
  split.
  - apply (proj1 (filteredBookmarks_any_tag
                    (Sample.board Sample.four [] None))).
    reflexivity.
  - apply (proj1 (proj2 (filteredBookmarks_any_tag
                    (Sample.board Sample.four ["b"%string] None)))).
    simpl. discriminate.
Defined.

(** The selection [toggleTagFilter] leaves, computed from the selection
    alone. *)
Lemma toggleTagFilter_exec (tag : jsstring) (st : Dashboard) :
  selectedTags (exec (toggleTagFilter tag) st)
  = if includes (selectedTags st) tag
    then filter (fun t => negb (Js.eqb t tag)) (selectedTags st)
    else selectedTags st ++ [tag].
Proof.
  unfold exec, toggleTagFilter, bind, gets. simpl.
  destruct (includes (selectedTags st) tag); reflexivity.
Qed.

(** C9, as the code has it.  [toggleTagFilter(tag)] appends the tag to the
    active filter when it is absent and removes every occurrence of it when
    it is present, whether or not the tag is among the available tags; the
    other selected tags and the bookmarks stay as they were. *)
Theorem toggleTagFilter_adds_or_removes (tag : jsstring) (st : Dashboard) :
  (~ In tag (selectedTags st) ->
   selectedTags (exec (toggleTagFilter tag) st) = selectedTags st ++ [tag])
  /\ (In tag (selectedTags st) ->
      ~ In tag (selectedTags (exec (toggleTagFilter tag) st)))
  /\ (forall t, t <> tag ->
        (In t (selectedTags (exec (toggleTagFilter tag) st))
         <-> In t (selectedTags st)))
  /\ bookmarks (exec (toggleTagFilter tag) st) = bookmarks st.
Proof.
  rewrite toggleTagFilter_exec.
  destruct (includes (selectedTags st) tag) eqn:E.
  - apply includes_In in E. repeat split.
    + intros N. contradiction.
    + intros _ Hin. apply filter_In in Hin. destruct Hin as [_ Hneq].
      rewrite (proj2 (eqb_eq tag tag) eq_refl) in Hneq. discriminate.
    + intros Hin. apply filter_In in Hin. tauto.
    + intros Hin. apply filter_In. split; [exact Hin|].
      destruct (Js.eqb t tag) eqn:Et; [|reflexivity].
      apply eqb_eq in Et. contradiction.
    + unfold exec, toggleTagFilter, bind, gets. simpl.
      rewrite (proj2 (includes_In _ _) E). reflexivity.
  - assert (N : ~ In tag (selectedTags st)).
    { intros Hin. apply includes_In in Hin. congruence. }
    repeat split.
    + intros Hin. contradiction.
    + intros Hin. apply in_app_or in Hin. destruct Hin as [Hin|[<-|[]]].
      * exact Hin.
      * contradiction.
    + intros Hin. apply in_or_app. left. exact Hin.
    + unfold exec, toggleTagFilter, bind, gets. simpl.
      rewrite E. reflexivity.
Qed.

Lemma toggleTagFilter_adds_or_removes_witness :
  selectedTags
    (exec (toggleTagFilter (lit "c"))
       (Sample.board Sample.four ["a"; "b"]%string None))
  = [lit "a"; lit "b"; lit "c"]
  /\ ~ In (lit "a")
       (selectedTags
          (exec (toggleTagFilter (lit "a"))
             (Sample.board Sample.four ["a"; "b"]%string None))).
Proof.
  split.
  - apply (proj1 (toggleTagFilter_adds_or_removes (lit "c")
                    (Sample.board Sample.four ["a"; "b"]%string None))).
    simpl. intros [E|[E|[]]]; discriminate E.
  - apply (proj1 (proj2 (toggleTagFilter_adds_or_removes (lit "a")
                    (Sample.board Sample.four ["a"; "b"]%string None)))).
    simpl. left. reflexivity.
Defined.

(** C9, as it is worded, fails: with no bookmark at all, hence no available
    tag, toggling the tag [x] changes the filter from empty to [x]. *)
Lemma toggleTagFilter_unavailable_tag_selected :
  ~ In (lit "x") (availableTags (bookmarks (Sample.board [] [] None)))
  /\ selectedTags (Sample.board [] [] None) = []
  /\ selectedTags
       (exec (toggleTagFilter (lit "x")) (Sample.board [] [] None))
     = [lit "x"]
  /\ selectedTags
       (exec (toggleTagFilter (lit "x")) (Sample.board [] [] None))
     <> selectedTags (Sample.board [] [] None).
Proof.
  repeat split.
  - simpl. tauto.
  - simpl. discriminate.
Qed.

(* ------------------------------------------------------------------ *)
(** ** Drag and drop *)

Lemma spliceOut_permutation {A} (start : Z) (arr : list A) :
  Permutation arr (fst (spliceOut start arr) ++ snd (spliceOut start arr)).
Proof.
  unfold spliceOut. cbn [fst snd]. set (k := spliceStart start arr).
  rewrite <- (firstn_skipn k arr) at 1.
  rewrite <- (firstn_skipn 1 (skipn k arr)) at 1.
  rewrite skipn_skipn, (Nat.add_comm 1 k).
  apply Permutation_app_swap_app.
Qed.

Lemma spliceIn_permutation {A} (start : Z) (item : A) (arr : list A) :
  Permutation (item :: arr) (spliceIn start item arr).
Proof.
  unfold spliceIn. set (k := spliceStart start arr).
  rewrite <- (firstn_skipn k arr) at 1.
  apply Permutation_middle.
Qed.

Lemma spliceOut_at_most_one {A} (start : Z) (arr : list A) :
  length (fst (spliceOut start arr)) <= 1.
Proof.
  unfold spliceOut. cbn [fst]. rewrite length_firstn. lia.
Qed.

(** What [handleDrop] leaves in [bookmarks]: the list as it was when
    nothing is being dragged or the item is dropped on itself, and otherwise
    a rearrangement of the filtered view. *)
Lemma handleDrop_rearranges_view (target : Bookmark) (st : Dashboard) :
  bookmarks (exec (handleDrop target) st) = bookmarks st
  \/ Permutation (filteredBookmarks st)
       (bookmarks (exec (handleDrop target) st)).
Proof.
  unfold exec, handleDrop, bind, gets.
  cbn -[spliceOut spliceIn findIndex filteredBookmarks].
  destruct (draggedItem st) as [item|]; [|left; reflexivity].
  destruct (ident_eqb (id item) (id target)); [left; reflexivity|].
  right.
  set (view := filteredBookmarks st).
  set (di := findIndex (fun b => ident_eqb (id b) (id item)) view).
  set (ti := findIndex (fun b => ident_eqb (id b) (id target)) view).
  pose proof (spliceOut_permutation di view) as P.
  pose proof (spliceOut_at_most_one di view) as L.
  destruct (spliceOut di view) as [removed rest].
  cbn [fst snd] in P, L.
  destruct removed as [|moved [|x removed]];
    cbn -[spliceIn] in *.
  - exact P.
  - etransitivity; [exact P|]. apply spliceIn_permutation.
  - lia.
Qed.

(** [handleDrop] never calls the store, nor a fetcher. *)
Lemma handleDrop_journal (target : Bookmark) (st : Dashboard) :
  filter (fun c => isStoreCall c || isFetchCall c)
    (journal (exec (handleDrop target) st))
  = filter (fun c => isStoreCall c || isFetchCall c) (journal st).
Proof.
  unfold exec, handleDrop, bind, gets.
  cbn -[spliceOut spliceIn findIndex filteredBookmarks].
  destruct (draggedItem st) as [item|]; [|reflexivity].
  destruct (ident_eqb (id item) (id target)); [reflexivity|].
  destruct (spliceOut _ (filteredBookmarks st)) as [removed rest].
  cbn -[spliceIn].
  rewrite filter_app. cbn. apply app_nil_r.
Qed.

(** C5 at a drop made while a tag is selected.  The list holds a bookmark
    tagged a, one tagged b and another tagged a, and the filter shows the
    two tagged a.  Dropping the first on the third stores the rearranged
    view as the new list: the bookmark tagged b is gone from memory, so the
    new list is no rearrangement of the old one.  No call reaches the
    store. *)
Theorem handleDrop_under_filter_loses_bookmarks :
  let before :=
    [Sample.saved "first" ["a"%string]; Sample.saved "second" ["b"%string];
     Sample.saved "third" ["a"%string]] in
  let st :=
    Sample.board before ["a"%string]
      (Some (Sample.saved "first" ["a"%string])) in
  let st' := exec (handleDrop (Sample.saved "third" ["a"%string])) st in
  bookmarks st'
  = [Sample.saved "third" ["a"%string]; Sample.saved "first" ["a"%string]]
  /\ ~ In (Sample.saved "second" ["b"%string]) (bookmarks st')
  /\ ~ Permutation (bookmarks st) (bookmarks st')
  /\ filter isStoreCall (journal st') = [].
Proof.
  intros before st st'.
  assert (E : bookmarks st'
              = [Sample.saved "third" ["a"%string];
                 Sample.saved "first" ["a"%string]]) by reflexivity.
  split; [exact E|]. split; [|split].
  - rewrite E. simpl. intros [X|[X|[]]]; discriminate X.
  - intros P. apply Permutation_length in P. rewrite E in P.
    simpl in P. discriminate P.
  - reflexivity.
Qed.

(* ------------------------------------------------------------------ *)
(** ** The segments of [addBookmark] *)

Section Segments.

Context `{Platform}.

(** A blank input returns at once. *)
Lemma addBookmark_enter_blank (clock : N) (iso : jsstring)
    (st : Dashboard) :
  isBlank (newUrl st) = true ->
  addBookmark_enter clock iso st = (Resolved Returned, st).
Proof.
  intros B. unfold addBookmark_enter, bind, gets. cbn.
  rewrite B. reflexivity.
Qed.

(** An input that does not parse goes through the [catch] block and the
    [finally] block and is over. *)
Lemma addBookmark_enter_invalid (clock : N) (iso : jsstring)
    (st : Dashboard) :
  isBlank (newUrl st) = false ->
  parseURL (withScheme (newUrl st)) = None ->
  addBookmark_enter clock iso st
  = (Resolved Returned,
     {| bookmarks := filter notLoading (bookmarks st);
        saving := false;
        newUrl := newUrl st;
        newTags := newTags st;
        error := failedToAdd;
        selectedTags := selectedTags st;
        draggedItem := draggedItem st;
        journal :=
          journal st ++ [SetBookmarks (filter notLoading (bookmarks st))]
     |}).
Proof.
  intros B P. unfold addBookmark_enter, bind, gets.
  cbn -[withScheme lit]. rewrite B.
  unfold guarded, try_catch, bind, lift, newURL.
  cbn -[withScheme lit]. rewrite P. reflexivity.
Qed.

(** An input that parses leaves the placeholder at the head of the list
    and the invocation waiting for the two fetchers. *)
Lemma addBookmark_enter_valid (clock : N) (iso : jsstring)
    (st : Dashboard) (u : URL) :
  isBlank (newUrl st) = false ->
  parseURL (withScheme (newUrl st)) = Some u ->
  let ph :=
    placeholderBookmark u (processTags (newTags st)) clock iso in
  addBookmark_enter clock iso st
  = (Resolved
       (AwaitFetchers
          {| urlToSave := newUrl st; tagsToSave := newTags st;
             parsed := u; tagList := processTags (newTags st);
             tempId := clock |}),
     {| bookmarks := ph :: bookmarks st;
        saving := true;
        newUrl := [];
        newTags := [];
        error := [];
        selectedTags := selectedTags st;
        draggedItem := draggedItem st;
        journal :=
          journal st
          ++ [SetBookmarks (ph :: bookmarks st);
              CallGetPageTitle (href u);
              CallGenerateSummary (href u)]
     |}).
Proof.
  intros B P ph. unfold addBookmark_enter, bind, gets.
  cbn -[withScheme lit processTags placeholderBookmark]. rewrite B.
  unfold guarded, try_catch, bind, lift, newURL.
  cbn -[withScheme lit processTags placeholderBookmark]. rewrite P.
  cbn -[withScheme lit processTags placeholderBookmark].
  rewrite <- !app_assoc. reflexivity.
Qed.

Lemma addBookmark_afterFetch_run (user_id : jsstring) (l : Locals)
    (t s : jsstring) (st : Dashboard) :
  addBookmark_afterFetch user_id l t s st
  = (Resolved (AwaitInsert l (rowOf user_id l t s)),
     {| bookmarks := bookmarks st;
        saving := saving st;
        newUrl := newUrl st;
        newTags := newTags st;
        error := error st;
        selectedTags := selectedTags st;
        draggedItem := draggedItem st;
        journal :=
          journal st
          ++ [FetchersSettled t s; StoreInsert (rowOf user_id l t s)]
     |}).
Proof.
  unfold addBookmark_afterFetch, guarded, try_catch, bind, record, modify.
  cbn -[getFaviconUrl]. rewrite <- !app_assoc. reflexivity.
Qed.

Lemma addBookmark_afterInsert_stored (l : Locals) (stored : Bookmark)
    (st : Dashboard) :
  addBookmark_afterInsert l (Inserted stored) st
  = (Resolved Returned,
     {| bookmarks := map (swap (tempId l) stored) (bookmarks st);
        saving := false;
        newUrl := newUrl st;
        newTags := newTags st;
        error := error st;
        selectedTags := selectedTags st;
        draggedItem := draggedItem st;
        journal :=
          journal st
          ++ [StoreReplied (Inserted stored);
              SetBookmarks (map (swap (tempId l) stored) (bookmarks st))]
     |}).
Proof.
  unfold addBookmark_afterInsert, guarded, try_catch, bind, record, modify.
  cbn -[swap]. rewrite <- !app_assoc. reflexivity.
Qed.

Lemma addBookmark_afterInsert_failed (l : Locals) (st : Dashboard) :
  addBookmark_afterInsert l InsertFailed st
  = (Resolved Returned,
     {| bookmarks := filter notLoading (bookmarks st);
        saving := false;
        newUrl := urlToSave l;
        newTags := tagsToSave l;
        error := failedToAdd;
        selectedTags := selectedTags st;
        draggedItem := draggedItem st;
        journal :=
          journal st
          ++ [StoreReplied InsertFailed;
              SetBookmarks (filter notLoading (bookmarks st))]
     |}).
Proof.
  unfold addBookmark_afterInsert, guarded, try_catch, bind, record, modify.
  cbn -[lit]. rewrite <- !app_assoc. reflexivity.
Qed.

End Segments.

(* ------------------------------------------------------------------ *)
(** ** One invocation of [addBookmark], run to its end *)

Lemma ident_eqb_eq (a b : Ident) : ident_eqb a b = true <-> a = b.
Proof.
  destruct a as [m|s], b as [n|t]; simpl;
    try (split; [discriminate|discriminate]).
  - rewrite N.eqb_eq. split; [congruence | intros E; inversion E; auto].
  - rewrite eqb_eq. split; [congruence | intros E; inversion E; auto].
Qed.

Lemma swap_own (clock : N) (stored b : Bookmark) :
  id b = IdNumber clock -> swap clock stored b = stored.
Proof.
  intros E. unfold swap. rewrite (proj2 (ident_eqb_eq _ _) E). reflexivity.
Qed.

Lemma swap_other (clock : N) (stored b : Bookmark) :
  id b <> IdNumber clock -> swap clock stored b = b.
Proof.
  intros NE. unfold swap.
  destruct (ident_eqb (id b) (IdNumber clock)) eqn:E; [|reflexivity].
  apply ident_eqb_eq in E. contradiction.
Qed.

Lemma filter_notLoading_all (bs : list Bookmark) :
  Forall (fun b => isLoading b = false) bs -> filter notLoading bs = bs.
Proof.
  induction 1 as [|b bs Hb _ IH]; simpl; [reflexivity|].
  unfold notLoading at 1. rewrite Hb. simpl. rewrite IH. reflexivity.
Qed.

Lemma addBookmark_run `{Platform} (env : Env) (st : Dashboard) (u : URL) :
  isBlank (newUrl st) = false ->
  parseURL (withScheme (newUrl st)) = Some u ->
  let l :=
    {| urlToSave := newUrl st; tagsToSave := newTags st; parsed := u;
       tagList := processTags (newTags st); tempId := now env |} in
  let ph :=
    placeholderBookmark u (processTags (newTags st)) (now env) (nowISO env) in
  let row := rowOf (user env) l (settledTitle env l) (settledSummary env l) in
  addBookmark env st
  = match insert env row with
    | Inserted stored =>
        (Resolved Returned,
         {| bookmarks := stored :: map (swap (now env) stored) (bookmarks st);
            saving := false;
            newUrl := [];
            newTags := [];
            error := [];
            selectedTags := selectedTags st;
            draggedItem := draggedItem st;
            journal :=
              journal st
              ++ [SetBookmarks (ph :: bookmarks st);
                  CallGetPageTitle (href u);
                  CallGenerateSummary (href u);
                  FetchersSettled (settledTitle env l) (settledSummary env l);
                  StoreInsert row;
                  StoreReplied (Inserted stored);
                  SetBookmarks
                    (stored :: map (swap (now env) stored) (bookmarks st))]
         |})
    | InsertFailed =>
        (Resolved Returned,
         {| bookmarks := filter notLoading (bookmarks st);
            saving := false;
            newUrl := newUrl st;
            newTags := newTags st;
            error := failedToAdd;
            selectedTags := selectedTags st;
            draggedItem := draggedItem st;
            journal :=
              journal st
              ++ [SetBookmarks (ph :: bookmarks st);
                  CallGetPageTitle (href u);
                  CallGenerateSummary (href u);
                  FetchersSettled (settledTitle env l) (settledSummary env l);
                  StoreInsert row;
                  StoreReplied InsertFailed;
                  SetBookmarks (filter notLoading (bookmarks st))]
         |})
    end.
Proof.
  intros B P l ph row. unfold addBookmark, bind.
  rewrite (addBookmark_enter_valid (now env) (nowISO env) st u B P).
  cbv zeta. fold l ph. unfold resume at 1.
  rewrite addBookmark_afterFetch_run. fold row. unfold resume.
  destruct (insert env row) as [|stored].
  - rewrite addBookmark_afterInsert_failed.
    cbn -[lit settledTitle settledSummary]. rewrite <- !app_assoc.
    reflexivity.
  - rewrite addBookmark_afterInsert_stored.
    cbn -[lit settledTitle settledSummary swap].
    rewrite (swap_own (now env) stored ph eq_refl).
    rewrite <- !app_assoc. reflexivity.
Qed.

(** The order of the calls.  In an invocation whose input parses, the calls
    come in this order:
    the list update that puts the placeholder, titled [Loading...], at the
    head; the call of the title fetcher and the call of the summary fetcher;
    the settlement of both; the insert into the store; the reply of the
    store; and last the list update that reconciles.  When the store
    returns a row, that row stands at the head, where the placeholder was,
    and it was sent with the current user as owner; when the store fails no
    swap is made. *)
Theorem addBookmark_order `{Platform} (env : Env) (st : Dashboard) (u : URL) :
  isBlank (newUrl st) = false ->
  parseURL (withScheme (newUrl st)) = Some u ->
  let l :=
    {| urlToSave := newUrl st; tagsToSave := newTags st; parsed := u;
       tagList := processTags (newTags st); tempId := now env |} in
  let ph :=
    placeholderBookmark u (processTags (newTags st)) (now env) (nowISO env) in
  let t := settledTitle env l in
  let s := settledSummary env l in
  let row := rowOf (user env) l t s in
  let st' := exec (addBookmark env) st in
  title ph = lit "Loading..."
  /\ journal st'
     = journal st
       ++ [SetBookmarks (ph :: bookmarks st);
           CallGetPageTitle (href u);
           CallGenerateSummary (href u);
           FetchersSettled t s;
           StoreInsert row;
           StoreReplied (insert env row)]
       ++ match insert env row with
          | Inserted stored =>
              [SetBookmarks
                 (stored :: map (swap (now env) stored) (bookmarks st))]
          | InsertFailed => [SetBookmarks (filter notLoading (bookmarks st))]
          end
  /\ row_user_id row = user env
  /\ forall stored,
       insert env row = Inserted stored ->
       bookmarks st' = stored :: map (swap (now env) stored) (bookmarks st).
Proof.
  intros B P l ph t s row st'. subst st'. unfold exec.
  rewrite (addBookmark_run env st u B P).
  fold l. fold ph. fold t. fold s. fold row.
  split; [reflexivity|]. split; [|split; [reflexivity|]].
  - destruct (insert env row); reflexivity.
  - intros stored E. rewrite E. reflexivity.
Qed.

Lemma addBookmark_order_witness :
  bookmarks
    (exec
       (@addBookmark Sample.platform
          (Sample.env 1 (Sample.titled "Example") (Sample.page 50)
             (Sample.accept "row-1")))
       (Sample.typed (lit "example.com") (lit "news")
          [Sample.saved "older" []]))
  = [{| id := IdString (lit "row-1");
        url := lit "https://example.com/";
        title := lit "Example";
        summary := repeat 120%N 50;
        favicon := lit "https://www.google.com/s2/favicons?domain=example.com&sz=32";
        tags := Some [lit "news"];
        created_at := lit "2025-01-01T00:00:00.000Z";
        isLoading := false |};
     Sample.saved "older" []].
Proof.
  apply (proj2 (proj2 (proj2
    (@addBookmark_order Sample.platform
       (Sample.env 1 (Sample.titled "Example") (Sample.page 50)
          (Sample.accept "row-1"))
       (Sample.typed (lit "example.com") (lit "news")
          [Sample.saved "older" []])
       {| href := lit "https://example.com/";
          hostname := lit "example.com" |}
       eq_refl eq_refl)))).
  reflexivity.
Defined.

Lemma withScheme_prepends (raw : jsstring) :
  startsWith (lit "http") raw = false <->
  withScheme raw = lit "https://" ++ raw.
Proof.
  unfold withScheme. split.
  - intros E. rewrite E. reflexivity.
  - destruct (startsWith (lit "http") raw); [|reflexivity].
    intros E. apply (f_equal (@length N)) in E.
    rewrite length_app in E. simpl in E. lia.
Qed.

(** Validation comes first.  For an input that is not blank, [addBookmark]
    puts [https://] in front of it exactly when it does not start with the
    four units [http], and parses the
    result.  When that does not parse, the error message is set and the raw
    input returned to the form, no fetcher and no store call is made, and
    the list gains no entry; the placeholder is only made, from the parsed
    address, when the input parses. *)
Theorem addBookmark_validates_first `{Platform} (env : Env) (st : Dashboard) :
  isBlank (newUrl st) = false ->
  (startsWith (lit "http") (newUrl st) = false <->
   withScheme (newUrl st) = lit "https://" ++ newUrl st)
  /\ (startsWith (lit "http") (newUrl st) = true ->
      withScheme (newUrl st) = newUrl st)
  /\ (parseURL (withScheme (newUrl st)) = None ->
      let st' := exec (addBookmark env) st in
      error st' = failedToAdd
      /\ newUrl st' = newUrl st
      /\ filter (fun c => isStoreCall c || isFetchCall c) (journal st')
         = filter (fun c => isStoreCall c || isFetchCall c) (journal st)
      /\ bookmarks st' = filter notLoading (bookmarks st)
      /\ forall b, In b (bookmarks st') -> In b (bookmarks st))
  /\ (forall u,
        parseURL (withScheme (newUrl st)) = Some u ->
        let ph :=
          placeholderBookmark u (processTags (newTags st)) (now env)
            (nowISO env) in
        bookmarks (exec (addBookmark_enter (now env) (nowISO env)) st)
        = ph :: bookmarks st
        /\ url ph = href u).
Proof.
  intros B. split; [apply withScheme_prepends|]. split; [|split].
  - intros E. unfold withScheme. rewrite E. reflexivity.
  - intros P st'. subst st'. unfold exec, addBookmark, bind.
    rewrite (addBookmark_enter_invalid (now env) (nowISO env) st B P).
    cbn -[lit]. repeat split.
    + rewrite filter_app. cbn. apply app_nil_r.
    + intros b Hb. apply filter_In in Hb. tauto.
  - intros u P ph. unfold exec.
    rewrite (addBookmark_enter_valid (now env) (nowISO env) st u B P).
    split; reflexivity.
Qed.

Lemma addBookmark_validates_first_witness :
  error
    (exec
       (@addBookmark Sample.platform
          (Sample.env 1 (Sample.titled "Example") (Sample.page 50)
             (Sample.accept "row-1")))
       (Sample.typed (lit "not a url") (lit "a,b")
          [Sample.saved "older" []]))
  = failedToAdd
  /\ withScheme (lit "example.com") = lit "https://example.com".
Proof.
  split.
  - apply (proj1 (proj2 (proj2
      (@addBookmark_validates_first Sample.platform
         (Sample.env 1 (Sample.titled "Example") (Sample.page 50)
            (Sample.accept "row-1"))
         (Sample.typed (lit "not a url") (lit "a,b")
            [Sample.saved "older" []])
         eq_refl))) eq_refl).
  - apply (proj1 (proj1
      (@addBookmark_validates_first Sample.platform
         (Sample.env 1 (Sample.titled "Example") (Sample.page 50)
            (Sample.accept "row-1"))
         (Sample.typed (lit "example.com") (lit "a,b") [])
         eq_refl)) eq_refl).
Defined.

(** Rollback from a list without pending entries.  When the store fails and
    no entry of the list was pending when the call was made, the list ends exactly as it was
    before the call, the "failed to add" message is set, and the raw url and
    tag inputs are back in the form. *)
Theorem addBookmark_rolls_back `{Platform} (env : Env) (st : Dashboard)
    (u : URL) :
  isBlank (newUrl st) = false ->
  parseURL (withScheme (newUrl st)) = Some u ->
  (forall row, insert env row = InsertFailed) ->
  Forall (fun b => isLoading b = false) (bookmarks st) ->
  let st' := exec (addBookmark env) st in
  bookmarks st' = bookmarks st
  /\ error st' = failedToAdd
  /\ newUrl st' = newUrl st
  /\ newTags st' = newTags st
  /\ saving st' = false.
Proof.
  intros B P F Q st'. subst st'. unfold exec.
  rewrite (addBookmark_run env st u B P), F. cbn -[lit].
  rewrite (filter_notLoading_all _ Q). repeat split.
Qed.

Lemma addBookmark_rolls_back_witness :
  bookmarks
    (exec
       (@addBookmark Sample.platform
          (Sample.env 1 (Sample.titled "Example") (Sample.page 50)
             Sample.refuse))
       (Sample.typed (lit "example.com") (lit "a,b")
          [Sample.saved "older" []]))
  = [Sample.saved "older" []]
  /\ newUrl
       (exec
          (@addBookmark Sample.platform
             (Sample.env 1 (Sample.titled "Example") (Sample.page 50)
                Sample.refuse))
          (Sample.typed (lit "example.com") (lit "a,b")
             [Sample.saved "older" []]))
     = lit "example.com".
Proof.
  pose proof
    (@addBookmark_rolls_back Sample.platform
       (Sample.env 1 (Sample.titled "Example") (Sample.page 50)
          Sample.refuse)
       (Sample.typed (lit "example.com") (lit "a,b")
          [Sample.saved "older" []])
       {| href := lit "https://example.com/";
          hostname := lit "example.com" |}
       eq_refl eq_refl (fun _ => eq_refl)
       (Forall_cons (Sample.saved "older" []) (eq_refl false)
          (Forall_nil _))) as R.
  split; [exact (proj1 R) | exact (proj1 (proj2 (proj2 R)))].
Defined.

(** Why the form has to be closed while an invocation waits.  Were a second
    invocation started while a first has its placeholder in the list, as
    the disabled form does not let happen, and were it to meet a store that
    fails, its rollback would empty the list, which held the first
    placeholder before the call. *)
Lemma addBookmark_rollback_not_exact :
  let first :=
    exec (@addBookmark_enter Sample.platform 1 (lit "2025-01-01T00:00:00.000Z"))
      (Sample.typed (lit "first.example") [] []) in
  let before := Sample.retype "example.com" "a,b" first in
  let after :=
    exec
      (@addBookmark Sample.platform
         (Sample.env 2 (Sample.titled "Example") (Sample.page 50)
            Sample.refuse))
      before in
  map id (bookmarks before) = [IdNumber 1]
  /\ bookmarks after = []
  /\ bookmarks after <> bookmarks before.
Proof.
  cbv zeta. split; [reflexivity|]. split; [reflexivity|].
  vm_compute. discriminate.
Qed.

(** The two reconciliation steps on any list.  The placeholder of an
    invocation carries the reading of the clock at its start as its id.  When the store returns a
    row, the swap replaces the entries whose id is that reading and leaves
    every other entry where it is.  When the store fails, the rollback keeps
    the entries that are not pending and removes every pending one, whatever
    its id. *)
Theorem addBookmark_reconciles `{Platform} (l : Locals) (st : Dashboard) :
  (forall clock iso st0 u,
     isBlank (newUrl st0) = false ->
     parseURL (withScheme (newUrl st0)) = Some u ->
     exists ph l0,
       addBookmark_enter clock iso st0
       = (Resolved (AwaitFetchers l0),
          exec (addBookmark_enter clock iso) st0)
       /\ bookmarks (exec (addBookmark_enter clock iso) st0)
          = ph :: bookmarks st0
       /\ id ph = IdNumber clock
       /\ tempId l0 = clock)
  /\ (forall stored,
        let st' := exec (addBookmark_afterInsert l (Inserted stored)) st in
        length (bookmarks st') = length (bookmarks st)
        /\ forall i b,
             nth_error (bookmarks st) i = Some b ->
             nth_error (bookmarks st') i
             = Some (if ident_eqb (id b) (IdNumber (tempId l))
                     then stored else b))
  /\ (let st' := exec (addBookmark_afterInsert l InsertFailed) st in
      bookmarks st' = filter notLoading (bookmarks st)
      /\ forall b,
           In b (bookmarks st') <->
           In b (bookmarks st) /\ isLoading b = false).
Proof.
  split; [|split].
  - intros clock iso st0 u B P. unfold exec.
    rewrite (addBookmark_enter_valid clock iso st0 u B P). cbv zeta.
    eexists. eexists. repeat split.
  - intros stored st'. subst st'. unfold exec.
    rewrite addBookmark_afterInsert_stored. cbn [snd bookmarks]. split.
    + apply length_map.
    + intros i b E. rewrite nth_error_map, E. reflexivity.
  - intros st'. subst st'. unfold exec.
    rewrite addBookmark_afterInsert_failed. cbn [snd bookmarks].
    split; [reflexivity|]. intros b. rewrite filter_In.
    unfold notLoading. rewrite negb_true_iff. reflexivity.
Qed.

Lemma addBookmark_reconciles_witness :
  let u := {| href := lit "https://two.example/";
              hostname := lit "two.example" |} in
  let l := {| urlToSave := lit "two.example"; tagsToSave := [];
              parsed := u; tagList := []; tempId := 2 |} in
  let ph := @placeholderBookmark Sample.platform u [] 2 [] in
  nth_error
    (bookmarks
       (exec
          (addBookmark_afterInsert l (Inserted (Sample.saved "row-2" [])))
          (Sample.board [Sample.saved "older" []; ph] [] None)))
    1
  = Some (Sample.saved "row-2" [])
  /\ map id
       (bookmarks
          (exec (@addBookmark_enter Sample.platform 2 [])
             (Sample.typed (lit "two.example") [] [])))
     = [IdNumber 2].
Proof.
  intros u l ph. split.
  - apply (proj2 (proj1 (proj2
      (@addBookmark_reconciles Sample.platform l
         (Sample.board [Sample.saved "older" []; ph] [] None)))
      (Sample.saved "row-2" [])) 1 ph eq_refl).
  - destruct (proj1
      (@addBookmark_reconciles Sample.platform l
         (Sample.board [] [] None))
      2%N [] (Sample.typed (lit "two.example") [] []) u eq_refl eq_refl)
      as (ph' & l0 & _ & E & I & _).
    rewrite E. simpl. rewrite I. reflexivity.
Defined.

(** The same, step by step, for two invocations that the disabled form
    keeps apart: were they started at the clock readings 1 and 2 and both
    waiting, their placeholders would carry the ids 1 and 2, the rollback of
    the second would remove the placeholder of the first as well, and the
    swap of the first would then find no entry with the id 1. *)
Lemma addBookmark_rollback_reaches_other_placeholder :
  let iso := lit "2025-01-01T00:00:00.000Z" in
  let env1 :=
    Sample.env 1 (Sample.titled "One") (Sample.page 50)
      (Sample.accept "row-1") in
  let env2 :=
    Sample.env 2 (Sample.titled "Two") (Sample.page 50) Sample.refuse in
  let one :=
    @addBookmark_enter Sample.platform 1 iso
      (Sample.typed (lit "one.example") [] []) in
  let two :=
    @addBookmark_enter Sample.platform 2 iso
      (Sample.retype "two.example" EmptyString (snd one)) in
  let twoFailed :=
    @continue Sample.platform env2 (@continue Sample.platform env2 two) in
  let oneStored :=
    @continue Sample.platform env1
      (@continue Sample.platform env1 (fst one, snd twoFailed)) in
  map id (bookmarks (snd two)) = [IdNumber 2; IdNumber 1]
  /\ map id (bookmarks (snd twoFailed)) = []
  /\ bookmarks (snd oneStored) = []
  /\ exists stored,
       In (StoreReplied (Inserted stored)) (journal (snd oneStored)).
Proof.
  cbv zeta. split; [reflexivity|]. split; [reflexivity|].
  split; [reflexivity|].
  eexists. vm_compute. do 12 right. left. reflexivity.
Qed.

(* ------------------------------------------------------------------ *)
(** ** The fetchers settle *)

(** C7, as the code has it.  For an address that parses, [getPageTitle]
    resolves: to the [title] of the decoded body when the request is
    answered, whatever its status, with a body that decodes to a value
    carrying a non-empty title; and to the hostname of the address in every
    other case (the address cannot be encoded, the request fails, the body
    is not JSON or is [null], the title is missing or empty).
    [generateSummary] resolves for every address, and resolves to its
    generic fallback whenever its [try] block throws. *)
Theorem fetchers_settle `{Platform} (address : jsstring) (u : URL)
    (fetchT : jsstring -> TitleFetch) (fetchS : jsstring -> SummaryFetch) :
  parseURL address = Some u ->
  getPageTitle fetchT address
  = Resolved
      match encodeURIComponent address with
      | Resolved query =>
          match fetchT (lit "/api/get-title?url=" ++ query) with
          | TitleResponse _ (BodyData (Some (c :: t))) => c :: t
          | _ => hostname u
          end
      | Rejected => hostname u
      end
  /\ (exists s, generateSummary fetchS address = Resolved s)
  /\ (generateSummary_try fetchS address = Rejected ->
      generateSummary fetchS address = Resolved unableToGenerate).
Proof.
  intros P. split; [|split].
  - unfold getPageTitle, hostnameOf, newURL. rewrite P.
    destruct (encodeURIComponent address) as [query|]; [|reflexivity].
    cbn [andThen].
    destruct (fetchT (lit "/api/get-title?url=" ++ query))
      as [|status [| |[[|c t]|]]]; reflexivity.
  - apply generateSummary_settles.
  - intros E. unfold generateSummary. rewrite E. reflexivity.
Qed.

Lemma fetchers_settle_witness :
  @getPageTitle Sample.platform (fun _ => TitleNetworkError)
    (lit "https://example.com/")
  = Resolved (lit "example.com").
Proof.
  apply (proj1
    (@fetchers_settle Sample.platform (lit "https://example.com/")
       {| href := lit "https://example.com/";
          hostname := lit "example.com" |}
       (fun _ => TitleNetworkError) (fun _ => SummaryNetworkError)
       eq_refl)).
Defined.

(** C7, as it is worded, fails twice.  The status of the response is not
    read: a reply with status 500 whose body carries a title resolves to
    that title, not to the hostname.  And on a string that is no URL the
    fallback itself throws, so the promise is rejected. *)
Lemma getPageTitle_beyond_its_fallback :
  ok 500 = false
  /\ @getPageTitle Sample.platform
       (fun _ => TitleResponse 500 (BodyData (Some (lit "Oops"))))
       (lit "https://example.com/")
     = Resolved (lit "Oops")
  /\ @hostnameOf Sample.platform (lit "https://example.com/")
     = Resolved (lit "example.com")
  /\ @getPageTitle Sample.platform (fun _ => TitleNetworkError)
       (lit "not a url")
     = Rejected.
Proof.
  repeat split.
Qed.

(* ------------------------------------------------------------------ *)
(** ** Addresses *)

Lemma startsWith_app (p s : jsstring) : startsWith p (p ++ s) = true.
Proof.
  induction p as [|c p IH]; simpl; [reflexivity|].
  rewrite N.eqb_refl, IH. reflexivity.
Qed.

Lemma startsWith_shorter (p q s : jsstring) :
  startsWith (p ++ q) s = true -> startsWith p s = true.
Proof.
  revert s. induction p as [|c p IH]; intros s; simpl; [reflexivity|].
  destruct s as [|d s]; [discriminate|].
  rewrite !andb_true_iff. intros [E R]. split; [exact E|].
  apply IH. exact R.
Qed.

Lemma cleanUrl_has_scheme (address : jsstring) :
  startsWith (lit "http://") (cleanUrl address) = true
  \/ startsWith (lit "https://") (cleanUrl address) = true.
Proof.
  unfold cleanUrl.
  destruct (startsWith (lit "http://") address) eqn:E1; [left; exact E1|].
  destruct (startsWith (lit "https://") address) eqn:E2.
  - right. exact E2.
  - right. cbn [negb andb]. apply startsWith_app.
Qed.

(** X1.  [cleanUrl] of [generateSummary] always yields an address that
    starts with [http://] or [https://], and cleaning a cleaned address
    changes nothing. *)
Theorem cleanUrl_idempotent (address : jsstring) :
  (startsWith (lit "http://") (cleanUrl address) = true
   \/ startsWith (lit "https://") (cleanUrl address) = true)
  /\ cleanUrl (cleanUrl address) = cleanUrl address.
Proof.
  pose proof (cleanUrl_has_scheme address) as S.
  split; [exact S|].
  unfold cleanUrl at 1.
  destruct S as [E|E]; rewrite E.
  - reflexivity.
  - rewrite andb_false_r. reflexivity.
Qed.

(** X2.  The address [addBookmark] parses always starts with [http], adding
    the scheme twice is adding it once, and an input that [cleanUrl] leaves
    alone is left alone by [addBookmark] too. *)
Theorem withScheme_idempotent (raw : jsstring) :
  startsWith (lit "http") (withScheme raw) = true
  /\ withScheme (withScheme raw) = withScheme raw
  /\ (cleanUrl raw = raw -> withScheme raw = raw).
Proof.
  assert (S : startsWith (lit "http") (withScheme raw) = true).
  { unfold withScheme.
    destruct (startsWith (lit "http") raw) eqn:E; [exact E|].
    apply (startsWith_shorter (lit "http") (lit "s://")).
    apply (startsWith_app (lit "https://")). }
  split; [exact S|]. split.
  - unfold withScheme at 1. rewrite S. reflexivity.
  - intros C.
    destruct (cleanUrl_has_scheme raw) as [E|E]; rewrite C in E.
    + apply (startsWith_shorter (lit "http") (lit "://")) in E.
      unfold withScheme. rewrite E. reflexivity.
    + apply (startsWith_shorter (lit "http") (lit "s://")) in E.
      unfold withScheme. rewrite E. reflexivity.
Qed.

Lemma withScheme_idempotent_witness :
  withScheme (lit "https://example.com") = lit "https://example.com".
Proof.
  apply (proj2 (proj2 (withScheme_idempotent (lit "https://example.com")))).
  reflexivity.
Defined.

(* ------------------------------------------------------------------ *)
(** ** What the fetchers hand back *)

(** X3.  [generateSummary] always resolves, and what it resolves to is
    either the fallback that names a status that is not a success, or a
    string of at most 403 units. *)
Theorem generateSummary_bounded (fetch : jsstring -> SummaryFetch)
    (address : jsstring) :
  exists s,
    generateSummary fetch address = Resolved s
    /\ (length s <= 403
        \/ exists status, ok status = false /\ s = unableWithStatus status).
Proof.
  destruct (fetch (readerUrl address)) as [|status [body|]] eqn:F.
  - exists unableToGenerate. split.
    + unfold generateSummary, generateSummary_try. rewrite F. reflexivity.
    + left. vm_compute. lia.
  - destruct (ok status) eqn:K.
    + rewrite (generateSummary_body fetch address status body F K).
      eexists. split; [reflexivity|]. left.
      destruct (length body <? 10)%nat; [vm_compute; lia|].
      destruct (400 <? length (trim body))%nat eqn:L.
      * rewrite length_app, length_firstn, ellipsis_length. lia.
      * apply Nat.ltb_ge in L. lia.
    + rewrite (generateSummary_not_ok fetch address status _ F K).
      eexists. split; [reflexivity|]. right. exists status. auto.
  - destruct (ok status) eqn:K.
    + exists unableToGenerate. split.
      * unfold generateSummary, generateSummary_try. rewrite F, K.
        reflexivity.
      * left. vm_compute. lia.
    + rewrite (generateSummary_not_ok fetch address status _ F K).
      eexists. split; [reflexivity|]. right. exists status. auto.
Qed.

(** X4.  For an address that parses to a URL with a non-empty hostname, and
    replies of the title service whose [title], when there is one, is a
    string, [getPageTitle] resolves to a non-empty string, whatever such a
    reply is and also when the request fails. *)
Theorem getPageTitle_never_empty `{Platform} (fetch : jsstring -> TitleFetch)
    (address : jsstring) (u : URL) :
  parseURL address = Some u ->
  hostname u <> [] ->
  exists t, getPageTitle fetch address = Resolved t /\ t <> [].
Proof.
  intros P N. unfold getPageTitle, hostnameOf, newURL. rewrite P.
  destruct (encodeURIComponent address) as [query|];
    [|exists (hostname u); split; [reflexivity | exact N]].
  cbn [andThen].
  destruct (fetch (lit "/api/get-title?url=" ++ query))
    as [|status [| |[[|c t]|]]];
    try (exists (hostname u); split; [reflexivity | exact N]).
  exists (c :: t). split; [reflexivity | discriminate].
Qed.

Lemma getPageTitle_never_empty_witness :
  exists t,
    @getPageTitle Sample.platform
      (fun _ => TitleResponse 200 (BodyData (Some [])))
      (lit "https://example.com/")
    = Resolved t
    /\ t <> [].
Proof.
  apply (@getPageTitle_never_empty Sample.platform
           (fun _ => TitleResponse 200 (BodyData (Some [])))
           (lit "https://example.com/")
           {| href := lit "https://example.com/";
              hostname := lit "example.com" |}
           eq_refl).
  discriminate.
Defined.

(** X5.  The icon address depends on the hostname alone: two addresses that
    parse to the same hostname get the same icon, and that icon is not the
    local default, which is what an address that does not parse gets. *)
Theorem getFaviconUrl_by_hostname `{Platform} (a b : jsstring) (ua ub : URL) :
  parseURL a = Some ua ->
  parseURL b = Some ub ->
  hostname ua = hostname ub ->
  getFaviconUrl a = getFaviconUrl b
  /\ getFaviconUrl a <> lit "/favicon.ico"
  /\ forall c, parseURL c = None -> getFaviconUrl c = lit "/favicon.ico".
Proof.
  intros Pa Pb E. unfold getFaviconUrl, newURL. rewrite Pa, Pb.
  cbn [andThen orElse]. rewrite E.
  split; [reflexivity|]. split.
  - cbn. discriminate.
  - intros c Pc. rewrite Pc. reflexivity.
Qed.

Lemma getFaviconUrl_by_hostname_witness :
  @getFaviconUrl Sample.platform (lit "https://example.com/a")
  = @getFaviconUrl Sample.platform (lit "http://example.com/b/c").
Proof.
  apply (@getFaviconUrl_by_hostname Sample.platform
           (lit "https://example.com/a") (lit "http://example.com/b/c")
           {| href := lit "https://example.com/a";
              hostname := lit "example.com" |}
           {| href := lit "http://example.com/b/c";
              hostname := lit "example.com" |}
           eq_refl eq_refl eq_refl).
Defined.

(* ------------------------------------------------------------------ *)
(** ** Tags *)

Lemma split_not_nil (sep : N) (s : jsstring) : split sep s <> [].
Proof.
  destruct s as [|c s]; simpl; [discriminate|].
  destruct (N.eqb c sep); [discriminate|].
  destruct (split sep s); discriminate.
Qed.

Lemma split_blank (s : jsstring) :
  Forall (fun c => isWhite c = true \/ c = 44%N) s ->
  Forall (Forall (fun c => isWhite c = true)) (split 44 s).
Proof.
  induction 1 as [|c s Hc _ IH]; simpl.
  - constructor; constructor.
  - destruct (N.eqb c 44) eqn:E.
    + constructor; [constructor | exact IH].
    + apply N.eqb_neq in E. destruct Hc as [W|C]; [|contradiction].
      destruct (split 44 s) as [|p ps]; [repeat constructor; exact W|].
      inversion IH; subst. constructor; [|assumption].
      constructor; assumption.
Qed.

Lemma trim_blank (p : jsstring) :
  Forall (fun c => isWhite c = true) p -> trim p = [].
Proof.
  intros W. unfold trim.
  assert (E : trimStart p = []).
  { induction W as [|c p Hc _ IH]; simpl; [reflexivity|].
    rewrite Hc. exact IH. }
  rewrite E. reflexivity.
Qed.

(** X6.  No tag [addBookmark] keeps is empty, there are at most as many
    tags as comma separated pieces, and, on a platform whose lower-casing
    maps the empty string to itself, a tag input made of white space and
    commas only (the empty input included) gives no tag at all. *)
Theorem processTags_drops_blanks `{Platform} (tagsToSave : jsstring) :
  Forall (fun tag => tag <> []) (processTags tagsToSave)
  /\ length (processTags tagsToSave) <= length (split 44 tagsToSave)
  /\ (toLowerCase [] = [] ->
      Forall (fun c => isWhite c = true \/ c = 44%N) tagsToSave ->
      processTags tagsToSave = []).
Proof.
  unfold processTags. split; [|split].
  - apply Forall_forall. intros tag Hin. apply filter_In in Hin.
    destruct Hin as [_ L]. destruct tag; [discriminate L | discriminate].
  - etransitivity; [apply filter_length_le|]. rewrite length_map. lia.
  - intros L W. apply split_blank in W.
    induction W as [|p ps Hp _ IH]; simpl; [reflexivity|].
    rewrite (trim_blank p Hp), L. simpl. exact IH.
Qed.

Lemma processTags_drops_blanks_witness :
  @processTags Sample.platform (lit " , ,, ") = [].
Proof.
  apply (proj2 (proj2 (@processTags_drops_blanks Sample.platform
                         (lit " , ,, ")))).
  - reflexivity.
  - repeat (apply Forall_cons;
            [first [left; reflexivity | right; reflexivity]|]).
    apply Forall_nil.
Defined.

Lemma addTag_fold (ts seen : list jsstring) :
  NoDup seen ->
  NoDup (fold_left addTag ts seen)
  /\ forall tag, In tag (fold_left addTag ts seen) <-> In tag seen \/ In tag ts.
Proof.
  revert seen. induction ts as [|t ts IH]; intros seen ND; simpl.
  - split; [exact ND|]. intros tag. tauto.
  - assert (ND' : NoDup (addTag seen t)).
    { unfold addTag. destruct (includes seen t) eqn:E; [exact ND|].
      apply NoDup_app; [exact ND | repeat constructor; intros [] |].
      intros x Hx [<-|[]]. apply includes_In in Hx. congruence. }
    destruct (IH _ ND') as [N M]. split; [exact N|].
    intros tag. rewrite M. unfold addTag.
    destruct (includes seen t) eqn:E.
    + apply includes_In in E. split.
      * intros [I|I]; auto.
      * intros [I|[<-|I]]; auto.
    + rewrite in_app_iff. simpl. tauto.
Qed.

Lemma availableTags_fold (bs : list Bookmark) (seen : list jsstring) :
  NoDup seen ->
  let out :=
    fold_left
      (fun seen bookmark =>
         match tags bookmark with
         | Some ts => fold_left addTag ts seen
         | None => seen
         end)
      bs seen in
  NoDup out
  /\ forall tag,
       In tag out <->
       In tag seen
       \/ exists b ts, In b bs /\ tags b = Some ts /\ In tag ts.
Proof.
  revert seen. induction bs as [|b bs IH]; intros seen ND; simpl.
  - split; [exact ND|]. intros tag. split; [auto|].
    intros [I|(b & ts & [] & _)]. exact I.
  - destruct (tags b) as [ts|] eqn:T.
    + destruct (addTag_fold ts seen ND) as [N M].
      destruct (IH _ N) as [N' M']. split; [exact N'|].
      intros tag. rewrite M', M. split.
      * intros [[I|I]|(b' & ts' & I & T' & I')].
        -- left. exact I.
        -- right. exists b, ts. auto.
        -- right. exists b', ts'. auto.
      * intros [I|(b' & ts' & [<-|I] & T' & I')].
        -- left. left. exact I.
        -- rewrite T in T'. inversion T'; subst. left. right. exact I'.
        -- right. exists b', ts'. auto.
    + destruct (IH _ ND) as [N' M']. split; [exact N'|].
      intros tag. rewrite M'. split.
      * intros [I|(b' & ts' & I & T' & I')]; [left; exact I|].
        right. exists b', ts'. auto.
      * intros [I|(b' & ts' & [<-|I] & T' & I')].
        -- left. exact I.
        -- rewrite T in T'. discriminate T'.
        -- right. exists b', ts'. auto.
Qed.

Lemma availableTags_In (bs : list Bookmark) (tag : jsstring) :
  In tag (availableTags bs) <->
  exists b ts, In b bs /\ tags b = Some ts /\ In tag ts.
Proof.
  destruct (availableTags_fold bs [] (NoDup_nil _)) as [_ M].
  unfold availableTags. rewrite M.
  split; [intros [[]|E]; exact E | auto].
Qed.

(** X7.  The available tags are exactly the tags carried by some bookmark
    of the list, each listed once. *)
Theorem availableTags_distinct (bs : list Bookmark) :
  NoDup (availableTags bs)
  /\ forall tag,
       In tag (availableTags bs) <->
       exists b ts, In b bs /\ tags b = Some ts /\ In tag ts.
Proof.
  split.
  - apply (availableTags_fold bs [] (NoDup_nil _)).
  - apply availableTags_In.
Qed.

Lemma availableTags_distinct_witness :
  exists b ts,
    In b Sample.four /\ tags b = Some ts /\ In (lit "b") ts.
Proof.
  apply (proj1 (proj2 (availableTags_distinct Sample.four) (lit "b"))).
  vm_compute. right. left. reflexivity.
Defined.

(* ------------------------------------------------------------------ *)
(** ** The filter and its buttons *)

Lemma toggleTagFilter_bookmarks (tag : jsstring) (st : Dashboard) :
  bookmarks (exec (toggleTagFilter tag) st) = bookmarks st.
Proof.
  unfold exec, toggleTagFilter, bind, gets. simpl.
  destruct (includes (selectedTags st) tag); reflexivity.
Qed.

Lemma filteredBookmarks_In (st : Dashboard) (b : Bookmark) :
  In b (filteredBookmarks st) <->
  In b (bookmarks st)
  /\ (selectedTags st = [] \/ matchesFilter (selectedTags st) b = true).
Proof.
  unfold filteredBookmarks. destruct (selectedTags st) as [|t sel].
  - split; [intros I; split; auto | tauto].
  - rewrite filter_In. split.
    + intros [I M]. auto.
    + intros [I [E|M]]; [discriminate E | auto].
Qed.

Lemma matchesFilter_ext (s1 s2 : list jsstring) (b : Bookmark) :
  (forall t, In t s1 <-> In t s2) ->
  matchesFilter s1 b = matchesFilter s2 b.
Proof.
  intros E.
  destruct (matchesFilter s1 b) eqn:M1, (matchesFilter s2 b) eqn:M2;
    try reflexivity.
  - apply matchesFilter_spec in M1. destruct M1 as (ts & t & T & I & S).
    assert (M : matchesFilter s2 b = true).
    { apply matchesFilter_spec. exists ts, t. rewrite <- E. auto. }
    congruence.
  - apply matchesFilter_spec in M2. destruct M2 as (ts & t & T & I & S).
    assert (M : matchesFilter s1 b = true).
    { apply matchesFilter_spec. exists ts, t. rewrite E. auto. }
    congruence.
Qed.

Lemma filteredBookmarks_ext (st1 st2 : Dashboard) :
  bookmarks st1 = bookmarks st2 ->
  (forall t, In t (selectedTags st1) <-> In t (selectedTags st2)) ->
  filteredBookmarks st1 = filteredBookmarks st2.
Proof.
  intros B E. unfold filteredBookmarks. rewrite B.
  destruct (selectedTags st1) as [|t1 s1] eqn:S1,
           (selectedTags st2) as [|t2 s2] eqn:S2.
  - reflexivity.
  - exfalso. apply (proj2 (E t2)). left. reflexivity.
  - exfalso. apply (proj1 (E t1)). left. reflexivity.
  - apply filter_ext. intros b. apply matchesFilter_ext. exact E.
Qed.

(** X8.  Every available tag shows something: with no tag selected, a click
    on the button of an available tag leaves a view that holds a bookmark of
    the list carrying that tag. *)
Theorem available_tag_shows_a_bookmark (tag : jsstring) (st : Dashboard) :
  selectedTags st = [] ->
  In tag (availableTags (bookmarks st)) ->
  exists b ts,
    In b (filteredBookmarks (exec (toggleTagFilter tag) st))
    /\ In b (bookmarks st)
    /\ tags b = Some ts
    /\ In tag ts.
Proof.
  intros S A. apply availableTags_In in A. destruct A as (b & ts & I & T & J).
  exists b, ts. repeat split; try assumption.
  apply filteredBookmarks_In. rewrite toggleTagFilter_bookmarks.
  split; [exact I|]. right. rewrite toggleTagFilter_exec, S. simpl.
  apply matchesFilter_spec. exists ts, tag. simpl. auto.
Qed.

Lemma available_tag_shows_a_bookmark_witness :
  exists b ts,
    In b
      (filteredBookmarks
         (exec (toggleTagFilter (lit "b"))
            (Sample.board Sample.four [] None)))
    /\ In b Sample.four
    /\ tags b = Some ts
    /\ In (lit "b") ts.
Proof.
  apply (available_tag_shows_a_bookmark (lit "b")
           (Sample.board Sample.four [] None) eq_refl).
  vm_compute. right. left. reflexivity.
Defined.

(** X9.  Selecting one more tag never hides a bookmark that the tags already
    selected show; selecting the first tag never shows a bookmark that was
    not on the list. *)
Theorem selecting_a_tag_widens (tag : jsstring) (st : Dashboard) :
  ~ In tag (selectedTags st) ->
  (selectedTags st <> [] ->
   incl (filteredBookmarks st)
        (filteredBookmarks (exec (toggleTagFilter tag) st)))
  /\ (selectedTags st = [] ->
      incl (filteredBookmarks (exec (toggleTagFilter tag) st))
           (filteredBookmarks st)).
Proof.
  intros N.
  assert (S : selectedTags (exec (toggleTagFilter tag) st)
              = selectedTags st ++ [tag]).
  { rewrite toggleTagFilter_exec.
    destruct (includes (selectedTags st) tag) eqn:E; [|reflexivity].
    apply includes_In in E. contradiction. }
  split.
  - intros NE b I. apply filteredBookmarks_In in I. destruct I as [I [E|M]];
      [contradiction|].
    apply filteredBookmarks_In. rewrite toggleTagFilter_bookmarks, S.
    split; [exact I|]. right.
    apply matchesFilter_spec in M. destruct M as (ts & t & T & J & K).
    apply matchesFilter_spec. exists ts, t. rewrite in_app_iff. auto.
  - intros E b I. apply filteredBookmarks_In in I.
    rewrite toggleTagFilter_bookmarks in I.
    apply filteredBookmarks_In. split; [tauto | left; exact E].
Qed.

Lemma selecting_a_tag_widens_witness :
  incl (filteredBookmarks (Sample.board Sample.four ["a"%string] None))
       (filteredBookmarks
          (exec (toggleTagFilter (lit "b"))
             (Sample.board Sample.four ["a"%string] None))).
Proof.
  apply (proj1 (selecting_a_tag_widens (lit "b")
                  (Sample.board Sample.four ["a"%string] None)
                  (fun I => match I with
                            | or_introl E => ltac:(discriminate E)
                            | or_intror F => F
                            end))).
  discriminate.
Defined.

(** X10.  Two clicks on the same tag button leave the view as it was.  When
    the tag was not selected the selection itself is back as it was; when
    it was, the tag may have moved to the end of the selection. *)
Theorem toggleTagFilter_twice (tag : jsstring) (st : Dashboard) :
  let st2 := exec (toggleTagFilter tag) (exec (toggleTagFilter tag) st) in
  filteredBookmarks st2 = filteredBookmarks st
  /\ (forall t, In t (selectedTags st2) <-> In t (selectedTags st))
  /\ (~ In tag (selectedTags st) -> selectedTags st2 = selectedTags st).
Proof.
  intros st2.
  assert (S2 : selectedTags st2
               = if includes (selectedTags st) tag
                 then filter (fun t => negb (Js.eqb t tag)) (selectedTags st)
                      ++ [tag]
                 else selectedTags st).
  { subst st2. rewrite toggleTagFilter_exec, toggleTagFilter_exec.
    destruct (includes (selectedTags st) tag) eqn:E.
    - destruct (includes (filter _ (selectedTags st)) tag) eqn:E';
        [|reflexivity].
      apply includes_In, filter_In in E'. destruct E' as [_ X].
      rewrite (proj2 (eqb_eq tag tag) eq_refl) in X. discriminate X.
    - rewrite (proj2 (includes_In (selectedTags st ++ [tag]) tag))
        by (apply in_or_app; right; left; reflexivity).
      rewrite filter_app. simpl.
      rewrite (proj2 (eqb_eq tag tag) eq_refl). simpl. rewrite app_nil_r.
      apply forallb_filter_id. apply forallb_forall. intros t I.
      destruct (Js.eqb t tag) eqn:X; [|reflexivity].
      apply eqb_eq in X. subst t. apply includes_In in I. congruence. }
  assert (M : forall t, In t (selectedTags st2) <-> In t (selectedTags st)).
  { intros t. rewrite S2.
    destruct (includes (selectedTags st) tag) eqn:E; [|reflexivity].
    apply includes_In in E. rewrite in_app_iff, filter_In. simpl. split.
    - intros [[I _]|[<-|[]]]; assumption.
    - intros I. destruct (Js.eqb t tag) eqn:X.
      + apply eqb_eq in X. auto.
      + left. auto. }
  split; [|split].
  - apply filteredBookmarks_ext; [|exact M].
    subst st2. rewrite !toggleTagFilter_bookmarks. reflexivity.
  - exact M.
  - intros N. rewrite S2.
    destruct (includes (selectedTags st) tag) eqn:E; [|reflexivity].
    apply includes_In in E. contradiction.
Qed.

Lemma toggleTagFilter_twice_witness :
  selectedTags
    (exec (toggleTagFilter (lit "c"))
       (exec (toggleTagFilter (lit "c"))
          (Sample.board Sample.four ["a"; "b"]%string None)))
  = [lit "a"; lit "b"].
Proof.
  apply (proj2 (proj2 (toggleTagFilter_twice (lit "c")
                         (Sample.board Sample.four ["a"; "b"]%string None)))).
  simpl. intros [E|[E|[]]]; discriminate E.
Defined.

(* ------------------------------------------------------------------ *)
(** ** Where a dropped bookmark lands *)

Lemma findIndex_range {A} (p : A -> bool) (arr : list A) :
  findIndex p arr = (-1)%Z
  \/ ((0 <= findIndex p arr < Z.of_nat (length arr))%Z
      /\ exists x,
           nth_error arr (Z.to_nat (findIndex p arr)) = Some x
           /\ p x = true).
Proof.
  induction arr as [|a arr IH]; [left; reflexivity|].
  cbn [findIndex]. destruct (p a) eqn:Pa.
  - right. split; [cbn [length]; lia|]. exists a. auto.
  - destruct IH as [E|[R (x & Hx & Px)]].
    + rewrite E. left. reflexivity.
    + right. destruct (findIndex p arr) as [|i|i] eqn:F; try lia.
      * split; [cbn [length]; lia|]. exists x. auto.
      * split; [cbn [length]; lia|]. exists x. split; [|exact Px].
        replace (Z.to_nat (Z.pos i + 1)) with (S (Z.to_nat (Z.pos i)))
          by lia.
        exact Hx.
Qed.

Lemma handleDrop_bookmarks (target item : Bookmark) (st : Dashboard) :
  draggedItem st = Some item ->
  ident_eqb (id item) (id target) = false ->
  let view := filteredBookmarks st in
  let draggedIndex := findIndex (fun b => ident_eqb (id b) (id item)) view in
  let targetIndex := findIndex (fun b => ident_eqb (id b) (id target)) view in
  bookmarks (exec (handleDrop target) st)
  = match fst (spliceOut draggedIndex view) with
    | moved :: _ => spliceIn targetIndex moved (snd (spliceOut draggedIndex view))
    | [] => snd (spliceOut draggedIndex view)
    end.
Proof.
  intros D N view draggedIndex targetIndex.
  unfold exec, handleDrop, bind, gets.
  cbn -[spliceOut spliceIn findIndex filteredBookmarks].
  rewrite D, N. fold view. fold draggedIndex. fold targetIndex.
  destruct (spliceOut draggedIndex view) as [removed rest].
  cbn -[spliceIn]. destruct removed; reflexivity.
Qed.

Lemma handleDrop_clears_dragged (target : Bookmark) (st : Dashboard) :
  draggedItem (exec (handleDrop target) st) = None.
Proof.
  unfold exec, handleDrop, bind, gets.
  cbn -[spliceOut spliceIn findIndex filteredBookmarks].
  destruct (draggedItem st) as [item|]; [|reflexivity].
  destruct (ident_eqb (id item) (id target)); [reflexivity|].
  destruct (spliceOut _ (filteredBookmarks st)) as [removed rest].
  reflexivity.
Qed.

(** X11.  With no tag selected, a drop only rearranges: the list after it
    holds the same bookmarks as before, nothing is being dragged any more,
    and neither the store nor a fetcher has been called. *)
Theorem handleDrop_unfiltered (target : Bookmark) (st : Dashboard) :
  selectedTags st = [] ->
  Permutation (bookmarks st) (bookmarks (exec (handleDrop target) st))
  /\ draggedItem (exec (handleDrop target) st) = None
  /\ filter (fun c => isStoreCall c || isFetchCall c)
       (journal (exec (handleDrop target) st))
     = filter (fun c => isStoreCall c || isFetchCall c) (journal st).
Proof.
  intros S. split; [|split].
  - destruct (handleDrop_rearranges_view target st) as [E|P].
    + rewrite E. apply Permutation_refl.
    + unfold filteredBookmarks in P. rewrite S in P. exact P.
  - apply handleDrop_clears_dragged.
  - apply handleDrop_journal.
Qed.

Lemma handleDrop_unfiltered_witness :
  Permutation Sample.four
    (bookmarks
       (exec (handleDrop (Sample.saved "third" ["a"; "b"]%string))
          (Sample.board Sample.four []
             (Some (Sample.saved "first" ["a"%string]))))).
Proof.
  apply (proj1 (handleDrop_unfiltered
                  (Sample.saved "third" ["a"; "b"]%string)
                  (Sample.board Sample.four []
                     (Some (Sample.saved "first" ["a"%string])))
                  eq_refl)).
Defined.

(** X12.  When the bookmark dropped on is in the view and is not the one
    being dragged, the bookmark that moves ends at the index the target had
    in the view; it is the first bookmark of the view with the id of the
    dragged one whenever the view holds such a bookmark. *)
Theorem handleDrop_lands_on_target (target item : Bookmark) (st : Dashboard) :
  draggedItem st = Some item ->
  ident_eqb (id item) (id target) = false ->
  let view := filteredBookmarks st in
  let draggedIndex := findIndex (fun b => ident_eqb (id b) (id item)) view in
  let targetIndex := findIndex (fun b => ident_eqb (id b) (id target)) view in
  (0 <= targetIndex)%Z ->
  exists moved,
    nth_error (bookmarks (exec (handleDrop target) st))
      (Z.to_nat targetIndex)
    = Some moved
    /\ In moved view
    /\ ((0 <= draggedIndex)%Z ->
        nth_error view (Z.to_nat draggedIndex) = Some moved
        /\ id moved = id item).
Proof.
  intros D N view draggedIndex targetIndex T.
  rewrite (handleDrop_bookmarks target item st D N).
  fold view. fold draggedIndex. fold targetIndex.
  destruct (findIndex_range (fun b => ident_eqb (id b) (id target)) view)
    as [E|[RT _]]; [fold targetIndex in E; lia | fold targetIndex in RT].
  set (k := spliceStart draggedIndex view).
  assert (K : k < length view
              /\ ((0 <= draggedIndex)%Z -> k = Z.to_nat draggedIndex)).
  { subst k. unfold spliceStart.
    destruct (findIndex_range (fun b => ident_eqb (id b) (id item)) view)
      as [E|[RD _]].
    - fold draggedIndex in E. rewrite E. cbn [Z.ltb Z.compare]. split; lia.
    - fold draggedIndex in RD.
      destruct (draggedIndex <? 0)%Z eqn:L; [apply Z.ltb_lt in L; lia|].
      split; lia. }
  destruct K as [K KD].
  destruct (nth_error view k) as [x|] eqn:X;
    [|apply nth_error_None in X; lia].
  destruct (nth_error_split view k X) as (l1 & l2 & V & L1).
  assert (F : firstn k view = l1).
  { rewrite V, <- L1, firstn_app, Nat.sub_diag, firstn_all. cbn [firstn].
    apply app_nil_r. }
  assert (S0 : skipn k view = x :: l2).
  { rewrite V, <- L1, skipn_app, Nat.sub_diag, skipn_all. reflexivity. }
  assert (S1 : skipn (k + 1) view = l2).
  { rewrite Nat.add_comm, <- skipn_skipn, S0. reflexivity. }
  unfold spliceOut. fold k. cbn [fst snd]. rewrite S0, F, S1.
  cbn [firstn]. exists x. split; [|split].
  - unfold spliceIn, spliceStart.
    assert (G : (targetIndex <? 0)%Z = false) by (apply Z.ltb_ge; lia).
    rewrite G.
    assert (LR : length (l1 ++ l2) = length view - 1).
    { rewrite V, !length_app. cbn [length]. lia. }
    assert (M : Nat.min (Z.to_nat targetIndex) (length (l1 ++ l2))
                = Z.to_nat targetIndex) by lia.
    rewrite M.
    rewrite nth_error_app2 by (rewrite length_firstn; lia).
    rewrite length_firstn.
    replace (Z.to_nat targetIndex
             - Nat.min (Z.to_nat targetIndex) (length (l1 ++ l2)))
      with 0 by lia.
    reflexivity.
  - rewrite V. apply in_or_app. right. left. reflexivity.
  - intros P.
    destruct (findIndex_range (fun b => ident_eqb (id b) (id item)) view)
      as [E|[_ (y & Y & PY)]]; [fold draggedIndex in E; lia|].
    fold draggedIndex in Y.
    rewrite <- (KD P), X in Y. inversion Y; subst y.
    split; [rewrite <- (KD P); exact X|].
    apply ident_eqb_eq. exact PY.
Qed.

Lemma handleDrop_lands_on_target_witness :
  exists moved,
    nth_error
      (bookmarks
         (exec (handleDrop (Sample.saved "third" ["a"; "b"]%string))
            (Sample.board Sample.four []
               (Some (Sample.saved "first" ["a"%string])))))
      2
    = Some moved
    /\ In moved Sample.four
    /\ ((0 <= 0)%Z ->
        nth_error Sample.four 0 = Some moved
        /\ id moved = id (Sample.saved "first" ["a"%string])).
Proof.
  apply (handleDrop_lands_on_target
           (Sample.saved "third" ["a"; "b"]%string)
           (Sample.saved "first" ["a"%string])
           (Sample.board Sample.four []
              (Some (Sample.saved "first" ["a"%string])))
           eq_refl eq_refl).
  vm_compute. discriminate.
Defined.

(* ------------------------------------------------------------------ *)
(** ** More on one invocation of [addBookmark] *)

Lemma map_swap_others (clock : N) (stored : Bookmark) (bs : list Bookmark) :
  (forall b, In b bs -> id b <> IdNumber clock) ->
  map (swap clock stored) bs = bs.
Proof.
  induction bs as [|b bs IH]; intros O; simpl; [reflexivity|].
  rewrite (swap_other clock stored b) by (apply O; left; reflexivity).
  rewrite IH; [reflexivity|]. intros b' I. apply O. right. exact I.
Qed.

(** X13.  A blank url input (empty, or white space only) makes
    [addBookmark] return at once: the state is untouched, no message is
    set, the form keeps what was typed and nothing is called. *)
Theorem addBookmark_blank `{Platform} (env : Env) (st : Dashboard) :
  isBlank (newUrl st) = true ->
  addBookmark env st = (Resolved Returned, st).
Proof.
  intros B. unfold addBookmark, bind.
  rewrite (addBookmark_enter_blank (now env) (nowISO env) st B).
  reflexivity.
Qed.

Lemma addBookmark_blank_witness :
  exec
    (@addBookmark Sample.platform
       (Sample.env 1 (Sample.titled "Example") (Sample.page 50)
          (Sample.accept "row-1")))
    (Sample.typed (lit "   ") (lit "a,b") Sample.four)
  = Sample.typed (lit "   ") (lit "a,b") Sample.four.
Proof.
  unfold exec.
  rewrite (@addBookmark_blank Sample.platform
             (Sample.env 1 (Sample.titled "Example") (Sample.page 50)
                (Sample.accept "row-1"))
             (Sample.typed (lit "   ") (lit "a,b") Sample.four)
             eq_refl).
  reflexivity.
Defined.

(** X14.  When the store returns a row and no bookmark of the list carries
    the temporary id, the list ends as the stored row followed by the list
    as it was, the form is empty, no message is set and the saving flag is
    down; if nothing was pending before and the stored row is not flagged,
    nothing is pending after. *)
Theorem addBookmark_success `{Platform} (env : Env) (st : Dashboard)
    (u : URL) (stored : Bookmark) :
  isBlank (newUrl st) = false ->
  parseURL (withScheme (newUrl st)) = Some u ->
  let l :=
    {| urlToSave := newUrl st; tagsToSave := newTags st; parsed := u;
       tagList := processTags (newTags st); tempId := now env |} in
  insert env (rowOf (user env) l (settledTitle env l) (settledSummary env l))
  = Inserted stored ->
  (forall b, In b (bookmarks st) -> id b <> IdNumber (now env)) ->
  let st' := exec (addBookmark env) st in
  bookmarks st' = stored :: bookmarks st
  /\ newUrl st' = []
  /\ newTags st' = []
  /\ error st' = []
  /\ saving st' = false
  /\ (isLoading stored = false ->
      Forall (fun b => isLoading b = false) (bookmarks st) ->
      Forall (fun b => isLoading b = false) (bookmarks st')).
Proof.
  intros B P l I O st'. subst st'. unfold exec.
  rewrite (addBookmark_run env st u B P). cbv zeta. fold l. rewrite I.
  cbn [snd bookmarks newUrl newTags error saving].
  rewrite (map_swap_others (now env) stored (bookmarks st) O).
  repeat split.
  intros S F. constructor; assumption.
Qed.

Lemma addBookmark_success_witness :
  bookmarks
    (exec
       (@addBookmark Sample.platform
          (Sample.env 7 (Sample.titled "Example") (Sample.page 50)
             (Sample.accept "row-1")))
       (Sample.typed (lit "example.com") (lit "news") Sample.four))
  = Sample.storedRow (lit "row-1")
      {| row_user_id := lit "user-1";
         row_url := lit "https://example.com/";
         row_title := lit "Example";
         row_summary := repeat 120%N 50;
         row_favicon :=
           lit "https://www.google.com/s2/favicons?domain=example.com&sz=32";
         row_tags := [lit "news"] |}
    :: Sample.four.
Proof.
  apply (@addBookmark_success Sample.platform
           (Sample.env 7 (Sample.titled "Example") (Sample.page 50)
              (Sample.accept "row-1"))
           (Sample.typed (lit "example.com") (lit "news") Sample.four)
           {| href := lit "https://example.com/";
              hostname := lit "example.com" |}
           _ eq_refl eq_refl eq_refl).
  intros b I E.
  repeat (destruct I as [<-|I]; [discriminate E|]). destruct I.
Defined.

(** X15.  An invocation whose input parses sends the store exactly one
    insert, and the row it sends agrees with the placeholder it showed: the
    same address, the same icon and the same tags, under the current user. *)
Theorem addBookmark_row_matches_placeholder `{Platform} (env : Env)
    (st : Dashboard) (u : URL) :
  isBlank (newUrl st) = false ->
  parseURL (withScheme (newUrl st)) = Some u ->
  let st' := exec (addBookmark env) st in
  exists ph row,
    In (SetBookmarks (ph :: bookmarks st)) (journal st')
    /\ filter isStoreCall (journal st')
       = filter isStoreCall (journal st)
         ++ [StoreInsert row; StoreReplied (insert env row)]
    /\ isLoading ph = true
    /\ row_url row = url ph
    /\ row_favicon row = favicon ph
    /\ Some (row_tags row) = tags ph
    /\ row_user_id row = user env.
Proof.
  intros B P st'. subst st'. unfold exec.
  rewrite (addBookmark_run env st u B P). cbv zeta.
  set (l := {| urlToSave := newUrl st; tagsToSave := newTags st;
               parsed := u; tagList := processTags (newTags st);
               tempId := now env |}).
  set (ph := placeholderBookmark u (processTags (newTags st)) (now env)
               (nowISO env)).
  set (row := rowOf (user env) l (settledTitle env l) (settledSummary env l)).
  exists ph, row.
  destruct (insert env row) as [|stored]; cbn [snd journal].
  - repeat split.
    + apply in_or_app. right. left. reflexivity.
    + rewrite filter_app. reflexivity.
  - repeat split.
    + apply in_or_app. right. left. reflexivity.
    + rewrite filter_app. reflexivity.
Qed.

Lemma addBookmark_row_matches_placeholder_witness :
  exists ph row,
    In (SetBookmarks (ph :: Sample.four))
       (journal
          (exec
             (@addBookmark Sample.platform
                (Sample.env 7 (Sample.titled "Example") (Sample.page 50)
                   Sample.refuse))
             (Sample.typed (lit "example.com") (lit "news") Sample.four)))
    /\ row_url row = url ph
    /\ Some (row_tags row) = tags ph.
Proof.
  destruct (@addBookmark_row_matches_placeholder Sample.platform
              (Sample.env 7 (Sample.titled "Example") (Sample.page 50)
                 Sample.refuse)
              (Sample.typed (lit "example.com") (lit "news") Sample.four)
              {| href := lit "https://example.com/";
                 hostname := lit "example.com" |}
              eq_refl eq_refl)
    as (ph & row & I & _ & _ & U & _ & T & _).
  exists ph, row. auto.
Defined.

(** X16.  For an input that is not blank the saving flag is up at both
    waits and down when the invocation is over, whether the input parsed
    and whatever the store replied. *)
Theorem addBookmark_saving_flag `{Platform} (env : Env) (st : Dashboard) :
  isBlank (newUrl st) = false ->
  saving (exec (addBookmark env) st) = false
  /\ (forall u,
        parseURL (withScheme (newUrl st)) = Some u ->
        let atFetch := addBookmark_enter (now env) (nowISO env) st in
        let atStore := continue env atFetch in
        saving (snd atFetch) = true
        /\ saving (snd atStore) = true
        /\ saving (snd (continue env atStore)) = false).
Proof.
  intros B. split.
  - unfold exec.
    destruct (parseURL (withScheme (newUrl st))) as [u|] eqn:P.
    + rewrite (addBookmark_run env st u B P). cbv zeta.
      destruct (insert env _); reflexivity.
    + unfold addBookmark, bind.
      rewrite (addBookmark_enter_invalid (now env) (nowISO env) st B P).
      reflexivity.
  - intros u P atFetch atStore. subst atStore atFetch.
    rewrite (addBookmark_enter_valid (now env) (nowISO env) st u B P).
    cbv zeta.
    match goal with
    | |- context [continue env (Resolved ?s, ?d)] =>
        change (continue env (Resolved s, d)) with (resume env s d)
    end.
    cbn [resume]. rewrite addBookmark_afterFetch_run.
    match goal with
    | |- context [continue env (Resolved ?s, ?d)] =>
        change (continue env (Resolved s, d)) with (resume env s d)
    end.
    cbn [resume].
    split; [reflexivity|]. split; [reflexivity|].
    destruct (insert env _) as [|stored].
    + rewrite addBookmark_afterInsert_failed. reflexivity.
    + rewrite addBookmark_afterInsert_stored. reflexivity.
Qed.

Lemma addBookmark_saving_flag_witness :
  saving
    (exec
       (@addBookmark Sample.platform
          (Sample.env 7 (Sample.titled "Example") (Sample.page 50)
             Sample.refuse))
       (Sample.typed (lit "not a url") (lit "news") Sample.four))
  = false.
Proof.
  apply (proj1 (@addBookmark_saving_flag Sample.platform
                  (Sample.env 7 (Sample.titled "Example") (Sample.page 50)
                     Sample.refuse)
                  (Sample.typed (lit "not a url") (lit "news") Sample.four)
                  eq_refl)).
Defined.

(* ------------------------------------------------------------------ *)
(** ** Deleting and reloading *)

Lemma otherThan_true (target : Ident) (b : Bookmark) :
  otherThan target b = true <-> id b <> target.
Proof.
  unfold otherThan. rewrite negb_true_iff. split.
  - intros E I. apply ident_eqb_eq in I. congruence.
  - intros N. destruct (ident_eqb (id b) target) eqn:E; [|reflexivity].
    apply ident_eqb_eq in E. contradiction.
Qed.

Lemma filter_otherThan_absent (target : Ident) (bs : list Bookmark) :
  (forall b, In b bs -> id b <> target) -> filter (otherThan target) bs = bs.
Proof.
  intros A. apply forallb_filter_id. apply forallb_forall.
  intros b I. apply otherThan_true. apply A. exact I.
Qed.

Lemma deleteBookmark_bookmarks (user_id : jsstring) (reply : DeleteResult)
    (target : Ident) (pg : Page) :
  bookmarks (dash (PageHandlers.exec (deleteBookmark user_id reply target) pg))
  = match reply with
    | Deleted => filter (otherThan target) (bookmarks (dash pg))
    | DeleteFailed => bookmarks (dash pg)
    end.
Proof. run_page. destruct reply; reflexivity. Qed.

(** X17.  [deleteBookmark(id)] sends the store one delete, for that id and
    the current user, and shows the id as being deleted while it waits.
    When the store accepts, the list loses exactly the entries with that id
    and keeps the others in their order; when the store fails, the list is
    as it was and the "failed to delete" message is set.  Either way no id
    is shown as being deleted afterwards. *)
Theorem deleteBookmark_outcomes (user_id : jsstring) (reply : DeleteResult)
    (target : Ident) (pg : Page) :
  let pg' := PageHandlers.exec (deleteBookmark user_id reply target) pg in
  deleting (PageHandlers.exec (deleteBookmark_enter user_id target) pg)
  = Some target
  /\ requests pg' = requests pg ++ [StoreDelete target user_id]
  /\ deleting pg' = None
  /\ (reply = Deleted ->
      bookmarks (dash pg') = filter (otherThan target) (bookmarks (dash pg))
      /\ (forall b,
            In b (bookmarks (dash pg')) <->
            In b (bookmarks (dash pg)) /\ id b <> target)
      /\ error (dash pg') = [])
  /\ (reply = DeleteFailed ->
      bookmarks (dash pg') = bookmarks (dash pg)
      /\ error (dash pg') = lit "Failed to delete bookmark").
Proof.
  intros pg'. subst pg'. split; [reflexivity|]. split; [|split; [|split]].
  - run_page. destruct reply; reflexivity.
  - run_page. destruct reply; reflexivity.
  - intros ->. split; [reflexivity|]. split; [|reflexivity].
    intros b. rewrite deleteBookmark_bookmarks, filter_In, otherThan_true.
    reflexivity.
  - intros ->. split; reflexivity.
Qed.

Lemma deleteBookmark_outcomes_witness :
  bookmarks
    (dash
       (PageHandlers.exec
          (deleteBookmark (lit "user-1") Deleted (IdString (lit "second")))
          (Sample.screen (Sample.board Sample.four [] None))))
  = [Sample.saved "first" ["a"%string];
     Sample.saved "third" ["a"; "b"]%string;
     Sample.saved "fourth" []].
Proof.
  apply (proj1 (proj1 (proj2 (proj2 (proj2
    (deleteBookmark_outcomes (lit "user-1") Deleted
       (IdString (lit "second"))
       (Sample.screen (Sample.board Sample.four [] None))))))
    eq_refl)).
Defined.

(** X18.  Accepted deletes do not depend on their order, and deleting the
    same id again changes nothing: the list after deleting one id and then
    another is the list after deleting them the other way round. *)
Theorem deleteBookmark_commutes (user_id : jsstring) (a b : Ident)
    (pg : Page) :
  let del target := PageHandlers.exec (deleteBookmark user_id Deleted target) in
  bookmarks (dash (del b (del a pg))) = bookmarks (dash (del a (del b pg)))
  /\ bookmarks (dash (del a (del a pg))) = bookmarks (dash (del a pg)).
Proof.
  intros del. subst del. cbv beta. rewrite !deleteBookmark_bookmarks.
  induction (bookmarks (dash pg)) as [|x xs [IH1 IH2]];
    [split; reflexivity|].
  cbn [filter].
  destruct (otherThan a x) eqn:A, (otherThan b x) eqn:B; cbn [filter];
    rewrite ?A, ?B; split; congruence.
Qed.

(** X19.  A bookmark added and then deleted is gone without a trace: when
    the store returns a row whose id, like the temporary id, no bookmark of
    the list carries, deleting that row's id after the add gives back the
    list as it was before the add. *)
Theorem add_then_delete `{Platform} (env : Env) (pg : Page) (u : URL)
    (stored : Bookmark) :
  isBlank (newUrl (dash pg)) = false ->
  parseURL (withScheme (newUrl (dash pg))) = Some u ->
  (forall row, insert env row = Inserted stored) ->
  (forall b,
     In b (bookmarks (dash pg)) ->
     id b <> IdNumber (now env) /\ id b <> id stored) ->
  bookmarks
    (dash
       (PageHandlers.exec (deleteBookmark (user env) Deleted (id stored))
          (PageHandlers.exec (inDashboard (addBookmark env)) pg)))
  = bookmarks (dash pg).
Proof.
  intros B P I O. rewrite deleteBookmark_bookmarks.
  unfold PageHandlers.exec, inDashboard.
  rewrite (addBookmark_run env (dash pg) u B P). cbv zeta. rewrite I.
  cbn [snd dash bookmarks].
  rewrite (map_swap_others (now env) stored (bookmarks (dash pg)))
    by (intros b J; apply (O b J)).
  cbn [filter]. unfold otherThan at 1.
  rewrite (proj2 (ident_eqb_eq (id stored) (id stored)) eq_refl).
  cbn [negb]. apply filter_otherThan_absent.
  intros b J. apply (O b J).
Qed.

Lemma add_then_delete_witness :
  bookmarks
    (dash
       (PageHandlers.exec
          (deleteBookmark (lit "user-1") Deleted (IdString (lit "row-9")))
          (PageHandlers.exec
             (inDashboard
                (@addBookmark Sample.platform
                   (Sample.env 7 (Sample.titled "Example") (Sample.page 50)
                      (fun _ => Inserted (Sample.saved "row-9" [])))))
             (Sample.screen
                (Sample.typed (lit "example.com") (lit "news")
                   Sample.four)))))
  = Sample.four.
Proof.
  apply (@add_then_delete Sample.platform
           (Sample.env 7 (Sample.titled "Example") (Sample.page 50)
              (fun _ => Inserted (Sample.saved "row-9" [])))
           (Sample.screen
              (Sample.typed (lit "example.com") (lit "news") Sample.four))
           {| href := lit "https://example.com/";
              hostname := lit "example.com" |}
           (Sample.saved "row-9" []) eq_refl eq_refl (fun _ => eq_refl)).
  intros b I.
  repeat (destruct I as [<-|I]; [split; discriminate|]). destruct I.
Defined.

(** X20.  [fetchBookmarks] sends the store one select for the current user.
    When the store answers, the list becomes the rows it returned, or the
    empty list when it returned [null], whatever the list held; when the
    store fails, the list is as it was and the "failed to load" message is
    set.  Either way the loading flag is down afterwards. *)
Theorem fetchBookmarks_outcomes (user_id : jsstring) (reply : SelectResult)
    (pg : Page) :
  let pg' := PageHandlers.exec (fetchBookmarks user_id reply) pg in
  requests pg' = requests pg ++ [StoreSelect user_id]
  /\ loading pg' = false
  /\ (forall rows, reply = Selected (Some rows) ->
        bookmarks (dash pg') = rows /\ error (dash pg') = error (dash pg))
  /\ (reply = Selected None -> bookmarks (dash pg') = [])
  /\ (reply = SelectFailed ->
      bookmarks (dash pg') = bookmarks (dash pg)
      /\ error (dash pg') = lit "Failed to load bookmarks").
Proof.
  intros pg'. subst pg'. split; [|split; [|split; [|split]]].
  - run_page. destruct reply as [|[rows|]]; reflexivity.
  - run_page. destruct reply as [|[rows|]]; reflexivity.
  - intros rows ->. split; reflexivity.
  - intros ->. reflexivity.
  - intros ->. split; reflexivity.
Qed.

Lemma fetchBookmarks_outcomes_witness :
  bookmarks
    (dash
       (PageHandlers.exec
          (fetchBookmarks (lit "user-1") (Selected (Some Sample.four)))
          mounted))
  = Sample.four
  /\ bookmarks
       (dash
          (PageHandlers.exec (fetchBookmarks (lit "user-1") SelectFailed)
             (Sample.screen (Sample.board Sample.four [] None))))
     = Sample.four.
Proof.
  split.
  - apply (proj1 (proj2 (proj2
      (fetchBookmarks_outcomes (lit "user-1") (Selected (Some Sample.four))
         mounted))) Sample.four eq_refl).
  - apply (proj2 (proj2 (proj2 (proj2
      (fetchBookmarks_outcomes (lit "user-1") SelectFailed
         (Sample.screen (Sample.board Sample.four [] None))))))
      eq_refl).
Defined.

(** X21.  A reload that completes while an add waits for its fetchers
    replaces the placeholder along with the rest of the list.  When the add
    is then stored, its swap finds nothing to replace: the list stays the
    rows of the reload, without the new row, as long as none of those rows
    carries the temporary id. *)
Theorem reload_during_add `{Platform} (env : Env) (pg : Page) (u : URL)
    (rows : list Bookmark) (stored : Bookmark) :
  isBlank (newUrl (dash pg)) = false ->
  parseURL (withScheme (newUrl (dash pg))) = Some u ->
  (forall row, insert env row = Inserted stored) ->
  (forall b, In b rows -> id b <> IdNumber (now env)) ->
  let l :=
    {| urlToSave := newUrl (dash pg); tagsToSave := newTags (dash pg);
       parsed := u; tagList := processTags (newTags (dash pg));
       tempId := now env |} in
  let row := rowOf (user env) l (settledTitle env l) (settledSummary env l) in
  let pg1 :=
    PageHandlers.exec
      (inDashboard (addBookmark_enter (now env) (nowISO env))) pg in
  let pg2 :=
    PageHandlers.exec (fetchBookmarks (user env) (Selected (Some rows))) pg1 in
  let pg3 :=
    PageHandlers.exec (inDashboard (resume env (AwaitFetchers l))) pg2 in
  let pg4 :=
    PageHandlers.exec (inDashboard (resume env (AwaitInsert l row))) pg3 in
  addBookmark_enter (now env) (nowISO env) (dash pg)
  = (Resolved (AwaitFetchers l), dash pg1)
  /\ bookmarks (dash pg2) = rows
  /\ In (StoreReplied (Inserted stored)) (journal (dash pg4))
  /\ bookmarks (dash pg4) = rows.
Proof.
  intros B P I O l row pg1 pg2 pg3 pg4.
  assert (E1 : addBookmark_enter (now env) (nowISO env) (dash pg)
               = (Resolved (AwaitFetchers l), dash pg1)).
  { subst pg1. unfold PageHandlers.exec, inDashboard.
    rewrite (addBookmark_enter_valid (now env) (nowISO env) (dash pg) u B P).
    reflexivity. }
  split; [exact E1|].
  assert (E2 : bookmarks (dash pg2) = rows) by reflexivity.
  split; [exact E2|].
  subst pg4 pg3. unfold PageHandlers.exec, inDashboard. cbn [resume].
  rewrite addBookmark_afterFetch_run. cbn [snd dash]. fold row.
  rewrite I, addBookmark_afterInsert_stored. cbn [snd dash journal bookmarks].
  split.
  - apply in_or_app. right. left. reflexivity.
  - rewrite E2. apply map_swap_others. exact O.
Qed.

Lemma reload_during_add_witness :
  let env :=
    Sample.env 7 (Sample.titled "Example") (Sample.page 50)
      (fun _ => Inserted (Sample.saved "row-9" [])) in
  let l :=
    {| urlToSave := lit "example.com"; tagsToSave := lit "news";
       parsed := {| href := lit "https://example.com/";
                    hostname := lit "example.com" |};
       tagList := [lit "news"]; tempId := 7 |} in
  let row :=
    @rowOf Sample.platform (lit "user-1") l (lit "Example")
      (repeat 120%N 50) in
  bookmarks
    (dash
       (PageHandlers.exec
          (inDashboard (@resume Sample.platform env (AwaitInsert l row)))
          (PageHandlers.exec
             (inDashboard (@resume Sample.platform env (AwaitFetchers l)))
             (PageHandlers.exec
                (fetchBookmarks (lit "user-1") (Selected (Some Sample.four)))
                (PageHandlers.exec
                   (inDashboard
                      (@addBookmark_enter Sample.platform 7
                         (lit "2025-01-01T00:00:00.000Z")))
                   (Sample.screen
                      (Sample.typed (lit "example.com") (lit "news")
                         [])))))))
  = Sample.four.
Proof.
  intros env l row.
  assert (O : forall b, In b Sample.four -> id b <> IdNumber (now env)).
  { intros b J E.
    repeat (destruct J as [<-|J]; [discriminate E|]). destruct J. }
  exact (proj2 (proj2 (proj2
    (@reload_during_add Sample.platform env
       (Sample.screen (Sample.typed (lit "example.com") (lit "news") []))
       {| href := lit "https://example.com/";
          hostname := lit "example.com" |}
       Sample.four (Sample.saved "row-9" [])
       eq_refl eq_refl (fun _ => eq_refl) O)))).
Defined.

Lemma deleteBookmark_dash (user_id : jsstring) (target : Ident) (pg : Page) :
  dash (PageHandlers.exec (deleteBookmark user_id Deleted target) pg)
  = {| bookmarks := filter (otherThan target) (bookmarks (dash pg));
       saving := saving (dash pg);
       newUrl := newUrl (dash pg);
       newTags := newTags (dash pg);
       error := [];
       selectedTags := selectedTags (dash pg);
       draggedItem := draggedItem (dash pg);
       journal :=
         journal (dash pg)
         ++ [SetBookmarks (filter (otherThan target) (bookmarks (dash pg)))]
    |}.
Proof. reflexivity. Qed.

(** X22.  A delete that the store accepts while an add waits for its
    fetchers does not disturb the add: whatever the store then replies to
    the insert, the list ends as if the delete had been made before the add
    began, provided the id deleted is not the temporary id. *)
Theorem delete_during_add `{Platform} (env : Env) (pg : Page) (u : URL)
    (target : Ident) :
  isBlank (newUrl (dash pg)) = false ->
  parseURL (withScheme (newUrl (dash pg))) = Some u ->
  target <> IdNumber (now env) ->
  let l :=
    {| urlToSave := newUrl (dash pg); tagsToSave := newTags (dash pg);
       parsed := u; tagList := processTags (newTags (dash pg));
       tempId := now env |} in
  let row := rowOf (user env) l (settledTitle env l) (settledSummary env l) in
  let del := PageHandlers.exec (deleteBookmark (user env) Deleted target) in
  let pg1 :=
    PageHandlers.exec
      (inDashboard (addBookmark_enter (now env) (nowISO env))) pg in
  let pg3 :=
    PageHandlers.exec (inDashboard (resume env (AwaitFetchers l)))
      (del pg1) in
  let pg4 :=
    PageHandlers.exec (inDashboard (resume env (AwaitInsert l row))) pg3 in
  addBookmark_enter (now env) (nowISO env) (dash pg)
  = (Resolved (AwaitFetchers l), dash pg1)
  /\ bookmarks (dash pg4)
     = bookmarks (dash (PageHandlers.exec (inDashboard (addBookmark env))
                          (del pg))).
Proof.
  intros B P N l row del pg1 pg3 pg4.
  assert (E1 : addBookmark_enter (now env) (nowISO env) (dash pg)
               = (Resolved (AwaitFetchers l), dash pg1)).
  { subst pg1. unfold PageHandlers.exec, inDashboard.
    rewrite (addBookmark_enter_valid (now env) (nowISO env) (dash pg) u B P).
    reflexivity. }
  split; [exact E1|].
  set (ph := placeholderBookmark u (processTags (newTags (dash pg)))
               (now env) (nowISO env)).
  assert (K : otherThan target ph = true).
  { apply otherThan_true. cbn. congruence. }
  assert (D1 : bookmarks (dash (del pg1))
               = ph :: filter (otherThan target) (bookmarks (dash pg))).
  { subst del. cbv beta. rewrite deleteBookmark_bookmarks.
    subst pg1. unfold PageHandlers.exec, inDashboard.
    rewrite (addBookmark_enter_valid (now env) (nowISO env) (dash pg) u B P).
    cbv zeta. fold ph. cbn [snd dash bookmarks filter]. rewrite K.
    reflexivity. }
  assert (R : bookmarks
                (dash (PageHandlers.exec (inDashboard (addBookmark env))
                         (del pg)))
              = match insert env row with
                | Inserted stored =>
                    stored
                    :: map (swap (now env) stored)
                         (filter (otherThan target) (bookmarks (dash pg)))
                | InsertFailed =>
                    filter notLoading
                      (filter (otherThan target) (bookmarks (dash pg)))
                end).
  { unfold PageHandlers.exec, inDashboard. subst del. cbv beta.
    rewrite (addBookmark_run env _ u)
      by (rewrite deleteBookmark_dash; assumption).
    cbv zeta. rewrite deleteBookmark_dash.
    cbn [newUrl newTags bookmarks]. fold l. fold row.
    destruct (insert env row); reflexivity. }
  rewrite R. subst pg4 pg3.
  unfold PageHandlers.exec at 1 2, inDashboard. cbn [resume].
  rewrite addBookmark_afterFetch_run. cbn [snd dash]. fold row.
  destruct (insert env row) as [|stored].
  - rewrite addBookmark_afterInsert_failed. cbn [snd dash bookmarks].
    rewrite D1. cbn [filter]. unfold notLoading at 1. reflexivity.
  - rewrite addBookmark_afterInsert_stored. cbn [snd dash bookmarks].
    rewrite D1. cbn [map tempId l].
    rewrite (swap_own (now env) stored ph eq_refl). reflexivity.
Qed.

Lemma delete_during_add_witness :
  let env :=
    Sample.env 7 (Sample.titled "Example") (Sample.page 50)
      (Sample.accept "row-1") in
  let start :=
    Sample.screen (Sample.typed (lit "example.com") (lit "news") Sample.four) in
  let l :=
    {| urlToSave := lit "example.com"; tagsToSave := lit "news";
       parsed := {| href := lit "https://example.com/";
                    hostname := lit "example.com" |};
       tagList := [lit "news"]; tempId := 7 |} in
  @addBookmark_enter Sample.platform 7 (lit "2025-01-01T00:00:00.000Z")
    (dash start)
  = (Resolved (AwaitFetchers l),
     dash
       (PageHandlers.exec
          (inDashboard
             (@addBookmark_enter Sample.platform 7
                (lit "2025-01-01T00:00:00.000Z")))
          start)).
Proof.
  intros env start l.
  assert (N : IdString (lit "second") <> IdNumber (now env))
    by discriminate.
  exact (proj1
    (@delete_during_add Sample.platform env start
       {| href := lit "https://example.com/";
          hostname := lit "example.com" |}
       (IdString (lit "second")) eq_refl eq_refl N)).
Defined.

(** X23.  [handleSignOut] asks once to sign out and lowers its flag when
    the request has settled, whichever way.  The list of bookmarks is never
    touched; the message "failed to sign out" is set when the request is
    rejected and no message is set when it is not. *)
Theorem handleSignOut_outcomes (reply : Promise unit) (pg : Page) :
  let pg' := PageHandlers.exec (handleSignOut reply) pg in
  requests pg' = requests pg ++ [SignOut]
  /\ signingOut pg' = false
  /\ bookmarks (dash pg') = bookmarks (dash pg)
  /\ error (dash pg')
     = match reply with
       | Resolved _ => error (dash pg)
       | Rejected => lit "Failed to sign out"
       end.
Proof.
  intros pg'. subst pg'. run_page. destruct reply as [[]|]; repeat split.
Qed.

(* ------------------------------------------------------------------ *)
(** ** The tag buttons follow the list *)

Lemma addBookmark_stored_list `{Platform} (env : Env) (st : Dashboard)
    (u : URL) (stored : Bookmark) :
  isBlank (newUrl st) = false ->
  parseURL (withScheme (newUrl st)) = Some u ->
  (forall row, insert env row = Inserted stored) ->
  (forall b, In b (bookmarks st) -> id b <> IdNumber (now env)) ->
  bookmarks (exec (addBookmark env) st) = stored :: bookmarks st.
Proof.
  intros B P I O. unfold exec.
  rewrite (addBookmark_run env st u B P). cbv zeta. rewrite I.
  cbn [snd bookmarks].
  rewrite (map_swap_others (now env) stored (bookmarks st) O).
  reflexivity.
Qed.

(** X24.  After an add that the store accepted, the available tags are the
    ones available before together with the tags of the stored row: every
    tag of the new bookmark has its button, and no button is lost. *)
Theorem addBookmark_extends_available_tags `{Platform} (env : Env)
    (st : Dashboard) (u : URL) (stored : Bookmark) :
  isBlank (newUrl st) = false ->
  parseURL (withScheme (newUrl st)) = Some u ->
  (forall row, insert env row = Inserted stored) ->
  (forall b, In b (bookmarks st) -> id b <> IdNumber (now env)) ->
  forall tag,
    In tag (availableTags (bookmarks (exec (addBookmark env) st))) <->
    In tag (availableTags (bookmarks st))
    \/ exists ts, tags stored = Some ts /\ In tag ts.
Proof.
  intros B P I O tag.
  rewrite (addBookmark_stored_list env st u stored B P I O).
  rewrite !availableTags_In. split.
  - intros (b & ts & [<-|J] & T & K).
    + right. exists ts. auto.
    + left. exists b, ts. auto.
  - intros [(b & ts & J & T & K)|(ts & T & K)].
    + exists b, ts. split; [right; exact J | auto].
    + exists stored, ts. split; [left; reflexivity | auto].
Qed.

Lemma addBookmark_extends_available_tags_witness :
  In (lit "fresh")
    (availableTags
       (bookmarks
          (exec
             (@addBookmark Sample.platform
                (Sample.env 7 (Sample.titled "Example") (Sample.page 50)
                   (fun _ => Inserted (Sample.saved "row-9" ["fresh"%string]))))
             (Sample.typed (lit "example.com") (lit "fresh") Sample.four)))).
Proof.
  assert (O : forall b, In b Sample.four -> id b <> IdNumber 7).
  { intros b J E.
    repeat (destruct J as [<-|J]; [discriminate E|]). destruct J. }
  apply (proj2
    (@addBookmark_extends_available_tags Sample.platform
       (Sample.env 7 (Sample.titled "Example") (Sample.page 50)
          (fun _ => Inserted (Sample.saved "row-9" ["fresh"%string])))
       (Sample.typed (lit "example.com") (lit "fresh") Sample.four)
       {| href := lit "https://example.com/";
          hostname := lit "example.com" |}
       (Sample.saved "row-9" ["fresh"%string])
       eq_refl eq_refl (fun _ => eq_refl) O (lit "fresh"))).
  right. exists [lit "fresh"]. split; [reflexivity | left; reflexivity].
Defined.

(** X25.  A delete never adds a tag button and never changes the selection:
    every tag available after it was available before, and the selected
    tags are the same, also when the last bookmark that carried one of them
    has just gone. *)
Theorem deleteBookmark_and_tags (user_id : jsstring) (reply : DeleteResult)
    (target : Ident) (pg : Page) :
  let pg' := PageHandlers.exec (deleteBookmark user_id reply target) pg in
  (forall tag,
     In tag (availableTags (bookmarks (dash pg'))) ->
     In tag (availableTags (bookmarks (dash pg))))
  /\ selectedTags (dash pg') = selectedTags (dash pg).
Proof.
  intros pg'. subst pg'. split.
  - intros tag. rewrite deleteBookmark_bookmarks, !availableTags_In.
    intros (b & ts & J & T & K). exists b, ts.
    split; [|auto]. destruct reply; [exact J|].
    apply filter_In in J. tauto.
  - run_page. destruct reply; reflexivity.
Qed.

Lemma deleteBookmark_and_tags_witness :
  In (lit "b")
    (availableTags
       (bookmarks
          (dash (Sample.screen (Sample.board Sample.four ["a"%string] None))))).
Proof.
  apply (proj1
    (deleteBookmark_and_tags (lit "user-1") Deleted
       (IdString (lit "first"))
       (Sample.screen (Sample.board Sample.four ["a"%string] None)))
    (lit "b")).
  vm_compute. left. reflexivity.
Defined.

(* ------------------------------------------------------------------ *)
(** ** What holds in every world the component can be in *)

Lemma inDashboard_dash {A} (m : Handler A) (pg : Page) :
  dash (PageHandlers.exec (inDashboard m) pg) = exec m (dash pg).
Proof.
  unfold PageHandlers.exec, inDashboard, exec.
  destruct (m (dash pg)) as [r d]. reflexivity.
Qed.

Lemma consistent_keep (w w' : World) :
  consistent w ->
  adding w' = adding w ->
  saving (dash (current w')) = saving (dash (current w)) ->
  incl (bookmarks (dash (current w'))) (bookmarks (dash (current w))) ->
  consistent w'.
Proof.
  intros [S O] A E I. unfold consistent. rewrite A, E.
  split; [exact S|]. intros b J. apply O. apply I. exact J.
Qed.

Lemma consistent_unflagged (w w' : World) :
  consistent w ->
  adding w' = adding w ->
  saving (dash (current w')) = saving (dash (current w)) ->
  Forall unflagged (bookmarks (dash (current w'))) ->
  consistent w'.
Proof.
  intros [S _] A E F. unfold consistent. rewrite A, E.
  split; [exact S|]. intros b J L.
  rewrite Forall_forall in F. rewrite (F b J) in L. discriminate L.
Qed.

Lemma consistent_idle (w : World) :
  consistent w ->
  saving (dash (current w)) = false ->
  adding w = Returned /\ Forall unflagged (bookmarks (dash (current w))).
Proof.
  intros [S O] F. rewrite F in S.
  destruct (adding w) as [l|l row|]; try discriminate S.
  split; [reflexivity|]. apply Forall_forall. intros b J.
  unfold unflagged. destruct (isLoading b) eqn:L; [|reflexivity].
  destruct (O b J L).
Qed.

Lemma handleDrop_saving (target : Bookmark) (st : Dashboard) :
  saving (exec (handleDrop target) st) = saving st.
Proof.
  unfold exec, handleDrop, bind, gets.
  cbn -[spliceOut spliceIn findIndex filteredBookmarks].
  destruct (draggedItem st) as [item|]; [|reflexivity].
  destruct (ident_eqb (id item) (id target)); [reflexivity|].
  destruct (spliceOut _ (filteredBookmarks st)) as [removed rest].
  reflexivity.
Qed.

Lemma handleDrop_incl (target : Bookmark) (st : Dashboard) :
  incl (bookmarks (exec (handleDrop target) st)) (bookmarks st).
Proof.
  intros b J. destruct (handleDrop_rearranges_view target st) as [E|P].
  - rewrite E in J. exact J.
  - apply Permutation_sym in P. apply (Permutation_in _ P) in J.
    apply filteredBookmarks_In in J. tauto.
Qed.

Lemma toggleTagFilter_saving (tag : jsstring) (st : Dashboard) :
  saving (exec (toggleTagFilter tag) st) = saving st.
Proof.
  unfold exec, toggleTagFilter, bind, gets. simpl.
  destruct (includes (selectedTags st) tag); reflexivity.
Qed.

Section Invariant.

Context `{Platform}.

Lemma submit_consistent (w : World) (clock : N) (iso : jsstring)
    (s : Suspended) (pg : Page) :
  consistent w ->
  submitEnabled (dash (current w)) = true ->
  inDashboard (addBookmark_enter clock iso) (current w) = (Resolved s, pg) ->
  consistent {| current := pg; adding := s |}.
Proof.
  intros C G E. unfold submitEnabled in G.
  apply negb_true_iff, orb_false_iff in G. destruct G as [S B].
  destruct (consistent_idle w C S) as [_ F]. rewrite Forall_forall in F.
  unfold inDashboard in E.
  destruct (parseURL (withScheme (newUrl (dash (current w))))) as [u|] eqn:P.
  - rewrite (addBookmark_enter_valid clock iso _ u B P) in E.
    cbv zeta in E. inversion E; subst; clear E.
    split; [reflexivity|]. intros b [<-|J] L; [reflexivity|].
    rewrite (F b J) in L. discriminate L.
  - rewrite (addBookmark_enter_invalid clock iso _ B P) in E.
    inversion E; subst; clear E.
    split; [reflexivity|]. intros b J L. cbn in J.
    apply filter_In in J. destruct J as [J _].
    rewrite (F b J) in L. discriminate L.
Qed.

Lemma settled_consistent (w : World) (env : Env) (s : Suspended)
    (pg : Page) :
  consistent w ->
  (forall row stored, insert env row = Inserted stored -> unflagged stored) ->
  inDashboard (resume env (adding w)) (current w) = (Resolved s, pg) ->
  consistent {| current := pg; adding := s |}.
Proof.
  intros [S O] U E. unfold inDashboard in E.
  destruct (adding w) as [l|l row|] eqn:A; cbn [resume inFlight] in *.
  - rewrite addBookmark_afterFetch_run in E. inversion E; subst; clear E.
    split; [exact S | exact O].
  - destruct (insert env row) as [|stored] eqn:I.
    + rewrite addBookmark_afterInsert_failed in E.
      inversion E; subst; clear E.
      split; [reflexivity|]. intros b J L. cbn in J.
      apply filter_In in J. destruct J as [_ J].
      unfold notLoading in J. rewrite L in J. discriminate J.
    + rewrite addBookmark_afterInsert_stored in E.
      inversion E; subst; clear E.
      split; [reflexivity|]. intros b J L. cbn in J.
      apply in_map_iff in J. destruct J as (b0 & E0 & J0).
      unfold swap in E0.
      destruct (ident_eqb (id b0) (IdNumber (tempId l))) eqn:Q.
      * subst b. rewrite (U row stored I) in L. discriminate L.
      * subst b0. pose proof (O b J0 L) as K.
        apply ident_eqb_eq in K. congruence.
  - inversion E; subst; clear E. split; [exact S | exact O].
Qed.

(** In every world the component can be in, the saving flag is up exactly
    while an invocation of [addBookmark] waits, and every pending entry of
    the list is the placeholder of that invocation. *)
Lemma Reachable_consistent (w : World) : Reachable w -> consistent w.
Proof.
  induction 1 as
    [ | w s R IH G | w s R IH G | w clock iso s pg R IH G E
    | w env s pg R IH U E | w tag R IH | w R IH | w bookmark R IH
    | w target R IH | w user_id target R IH | w target reply R IH
    | w user_id R IH | w reply R IH U | w reply R IH ].
  - split; [reflexivity|]. intros b [].
  - apply (consistent_keep w); cbn [current adding];
      rewrite ?inDashboard_dash; try reflexivity; auto. apply incl_refl.
  - apply (consistent_keep w); cbn [current adding];
      rewrite ?inDashboard_dash; try reflexivity; auto. apply incl_refl.
  - exact (submit_consistent w clock iso s pg IH G E).
  - exact (settled_consistent w env s pg IH U E).
  - apply (consistent_keep w); cbn [current adding];
      rewrite ?inDashboard_dash; auto.
    + apply toggleTagFilter_saving.
    + rewrite toggleTagFilter_bookmarks. apply incl_refl.
  - apply (consistent_keep w); cbn [current adding];
      rewrite ?inDashboard_dash; try reflexivity; auto. apply incl_refl.
  - apply (consistent_keep w); cbn [current adding];
      rewrite ?inDashboard_dash; try reflexivity; auto. apply incl_refl.
  - apply (consistent_keep w); cbn [current adding];
      rewrite ?inDashboard_dash; auto.
    + apply handleDrop_saving.
    + apply handleDrop_incl.
  - apply (consistent_keep w); cbn [current adding]; auto;
      try reflexivity. apply incl_refl.
  - apply (consistent_keep w); cbn [current adding]; auto.
    + run_page. destruct reply; reflexivity.
    + run_page. destruct reply; cbn; [apply incl_refl | apply incl_filter].
  - apply (consistent_keep w); cbn [current adding]; auto;
      try reflexivity. apply incl_refl.
  - destruct reply as [|[rows|]].
    + apply (consistent_keep w); cbn [current adding]; auto;
        try reflexivity. apply incl_refl.
    + apply (consistent_unflagged w); cbn [current adding]; auto;
        try reflexivity; try exact (U rows eq_refl).
    + apply (consistent_keep w); cbn [current adding]; auto;
        try reflexivity. intros b [].
  - apply (consistent_keep w); cbn [current adding]; auto.
    + run_page. destruct reply as [[]|]; reflexivity.
    + run_page. destruct reply as [[]|]; apply incl_refl.
Qed.

End Invariant.


(** C1.  In every world the component can be in, from which the form can be
    submitted, an [addBookmark] call whose input parses and whose store
    insert fails leaves the list exactly as it was before the call, with no
    pending entry in it; the "failed to add" message is set, and the raw url
    and tag inputs are back in the form. *)
Theorem addBookmark_rollback_restores_list `{Platform} (w : World)
    (env : Env) (u : URL) :
  Reachable w ->
  submitEnabled (dash (current w)) = true ->
  parseURL (withScheme (newUrl (dash (current w)))) = Some u ->
  (forall row, insert env row = InsertFailed) ->
  let st := dash (current w) in
  let st' := exec (addBookmark env) st in
  bookmarks st' = bookmarks st
  /\ Forall unflagged (bookmarks st')
  /\ error st' = failedToAdd
  /\ newUrl st' = newUrl st
  /\ newTags st' = newTags st.
Proof.
  intros R G P F st st'. subst st st'.
  apply Reachable_consistent in R.
  unfold submitEnabled in G.
  apply negb_true_iff, orb_false_iff in G. destruct G as [S B].
  destruct (consistent_idle w R S) as [_ Q].
  destruct (addBookmark_rolls_back env (dash (current w)) u B P F Q)
    as (E1 & E2 & E3 & E4 & _).
  rewrite E1. repeat split; assumption.
Qed.

Lemma addBookmark_rollback_restores_list_witness :
  bookmarks
    (exec
       (@addBookmark Sample.platform
          (Sample.env 7 (Sample.titled "Example") (Sample.page 50)
             Sample.refuse))
       (dash (current Sample.filled)))
  = Sample.four
  /\ newUrl
       (exec
          (@addBookmark Sample.platform
             (Sample.env 7 (Sample.titled "Example") (Sample.page 50)
                Sample.refuse))
          (dash (current Sample.filled)))
     = lit "example.com".
Proof.
  assert (R : @Reachable Sample.platform Sample.filled).
  { apply (@reach_typeTags Sample.platform
             {| current :=
                  PageHandlers.exec
                    (inDashboard (setNewUrl (lit "example.com")))
                    (current Sample.loaded);
                adding := Returned |}
             (lit "a,b")); [|reflexivity].
    apply (@reach_typeUrl Sample.platform Sample.loaded
             (lit "example.com")); [|reflexivity].
    apply (@reach_loadReplied Sample.platform
             {| current :=
                  PageHandlers.exec (fetchBookmarks_enter (lit "user-1"))
                    mounted;
                adding := Returned |}
             (Selected (Some Sample.four))).
    - apply (@reach_loadSent Sample.platform
               {| current := mounted; adding := Returned |} (lit "user-1")).
      apply reach_mounted.
    - intros rows E. inversion E; subst.
      repeat (apply Forall_cons; [reflexivity|]). apply Forall_nil. }
  pose proof
    (@addBookmark_rollback_restores_list Sample.platform Sample.filled
       (Sample.env 7 (Sample.titled "Example") (Sample.page 50)
          Sample.refuse)
       {| href := lit "https://example.com/";
          hostname := lit "example.com" |}
       R eq_refl eq_refl (fun _ => eq_refl)) as T.
  split; [exact (proj1 T) | exact (proj1 (proj2 (proj2 (proj2 T))))].
Defined.



(* ------------------------------------------------------------------ *)
(** ** A host name that starts with [http] *)

(** C4 at the input [httpbin.org].  The input names a host and has no
    scheme, and neither [http://] nor [https://] starts it, so the cleaning
    of [generateSummary] would put [https://] in front of it.  [addBookmark]
    tests for the four units [http] alone, takes the input to carry a scheme
    and parses it as it is; that fails, as it does in [new URL], although
    the address with [https://] in front parses.  The form shows the error,
    and no placeholder is made and no fetcher or store call. *)
Theorem addBookmark_refuses_httpbin :
  let env :=
    Sample.env 7 (Sample.titled "Example") (Sample.page 50)
      (Sample.accept "row-1") in
  let st := Sample.typed (lit "httpbin.org") [] Sample.four in
  let st' := exec (@addBookmark Sample.platform env) st in
  startsWith (lit "http://") (lit "httpbin.org") = false
  /\ startsWith (lit "https://") (lit "httpbin.org") = false
  /\ cleanUrl (lit "httpbin.org") = lit "https://httpbin.org"
  /\ withScheme (lit "httpbin.org") = lit "httpbin.org"
  /\ Sample.parse (lit "httpbin.org") = None
  /\ Sample.parse (lit "https://httpbin.org")
     = Some {| href := lit "https://httpbin.org/";
               hostname := lit "httpbin.org" |}
  /\ error st' = failedToAdd
  /\ bookmarks st' = Sample.four
  /\ filter (fun c => isStoreCall c || isFetchCall c) (journal st') = [].
Proof.
  cbv zeta. repeat split.
Qed.

(* ------------------------------------------------------------------ *)
(** ** What is shown, and when *)



